(** * The token broker of func/main.py

    A shallow embedding of [generate_token], the HTTP handler that trades a
    Terraform Cloud session token and run id for a Google Cloud access
    token, and of [get_sa_token], its minting helper.

    Everything the handler calls outside main.py (the environment variable
    and [json.loads], Flask's [request.get_json], [requests.get], the IAM
    credentials client, Python's string conversion) is observed through the
    record [Env]; the handler itself is the sequence of Python statements,
    written in an error-and-trace monad whose three ways of finishing a
    statement are: going on with a value, leaving the function by [return],
    and raising. *)

From Stdlib Require Import ZArith String List Lia.
From Stdlib Require Import Floats.SpecFloat.
From stdpp Require Import base option gmap strings.

Local Set Warnings "-register-all".
Local Open Scope string_scope.
Local Open Scope Z_scope.

(** ** Python values *)

(** What [json.loads], [resp.json()] and [request.get_json] can produce:
    [None], [bool], [int], [float], [str], [list] and [dict] with string
    keys.  A JSON object decodes to a dict with one value per key, hence a
    finite map. *)
Inductive pyval : Type :=
| PNone
| PBool (b : bool)
| PInt (z : Z)
| PFloat (f : spec_float)
| PStr (s : string)
| PList (l : list pyval)
| PDict (d : gmap string pyval).

Abbreviation pydict := (gmap string pyval).

(** The exceptions that can leave [generate_token]. *)
Inductive exn : Type :=
| UnboundLocalError (name : string)
| KeyError (key : string)
| TypeError
| RequestException      (* requests.get itself failed: no connection, timeout *)
| GoogleAPICallError.   (* the IAM credentials call failed *)

(** ** The outside world *)

(** A [requests.Response], as far as the handler looks at it: the status
    code, and what [resp.json()] gives ([None]: it raises JSONDecodeError). *)
Record Response : Type := mkResponse {
  status_code : Z;
  json : option pyval
}.

Inductive get_result : Type :=
| Responded (resp : Response)
| ConnectionFailed.   (* requests.get raised: no connection, timeout, ... *)

Record Env : Type := mkEnv {
  (** [json.loads(SA_MAPPING)], where [SA_MAPPING] is the environment
      variable SA_MAPPING_CONFIG (or ["{}"] when it is not set); [None]: it
      raises [json.JSONDecodeError]. *)
  loads_SA_MAPPING : option pyval;
  (** [request.get_json(silent=True)]; [PNone] when there is no JSON body. *)
  get_json : pyval;
  (** [requests.get(url, headers={'Authorization': authorization})]. *)
  requests_get : string -> string -> get_result;
  (** [IAMCredentialsClient().generate_access_token(name=, scope=)
      .access_token]; [None]: the call raises. *)
  generate_access_token : string -> list string -> option string;
  (** [str(v)] for a value [v] that is not a [str]. *)
  str_of : pyval -> string;
  (** [str(e)] for the voluptuous error raised on a rejected request body. *)
  humanized_error : pyval -> string
}.

(** The calls the handler makes to other services, in order. *)
Inductive event : Type :=
| EvGet (url authorization : string)
| EvMint (name : string) (scope : list string).

(** ** Statements: value, return or raise, with the calls made so far *)

(** What a Flask view returns: a body, with or without a status code. *)
Record reply : Type := mkReply {
  body : pydict;
  status : option Z
}.

(** A bare dict is answered with status 200. *)
Definition http_status (r : reply) : Z := default 200 (status r).

(** An expression has a value or raises. *)
Inductive result (A : Type) : Type :=
| Value (a : A)
| Raised (e : exn).
Arguments Value {A} a.
Arguments Raised {A} e.

(** A statement goes on to the next one, leaves the function with a reply,
    or raises. *)
Inductive completion (A : Type) : Type :=
| Normal (a : A)
| Returned (r : reply)
| Thrown (e : exn).
Arguments Normal {A} a.
Arguments Returned {A} r.
Arguments Thrown {A} e.

Definition Py (A : Type) : Type := list event * completion A.

Definition pure {A} (a : A) : Py A := ([], Normal a).
Definition return_ {A} (r : reply) : Py A := ([], Returned r).
Definition raise {A} (e : exn) : Py A := ([], Thrown e).

(** Evaluating an expression that makes no call. *)
Definition lift {A} (x : result A) : Py A :=
  match x with
  | Value a => pure a
  | Raised e => raise e
  end.

Definition bind {A B} (m : Py A) (k : A -> Py B) : Py B :=
  match m with
  | (t, Normal a) => let (t', c) := k a in ((t ++ t')%list, c)
  | (t, Returned r) => (t, Returned r)
  | (t, Thrown e) => (t, Thrown e)
  end.

#[global] Instance Py_ret : MRet Py := @pure.
#[global] Instance Py_bind : MBind Py := fun A B k m => bind m k.

(** How a call of the function ends. *)
Inductive outcome : Type :=
| Return (r : reply)
| Raise (e : exn).

Definition run (m : Py reply) : list event * outcome :=
  match m with
  | (t, Normal r) => (t, Return r)
  | (t, Returned r) => (t, Return r)
  | (t, Thrown e) => (t, Raise e)
  end.

(** ** Python operations used by the handler *)

(** [v[k]] for a string [k]. *)
Definition getitem (v : pyval) (k : string) : result pyval :=
  match v with
  | PDict d => match d !! k with
               | Some x => Value x
               | None => Raised (KeyError k)
               end
  | _ => Raised TypeError
  end.

(** [v[k1][k2]...]. *)
Fixpoint getpath (v : pyval) (ks : list string) : result pyval :=
  match ks with
  | [] => Value v
  | k :: ks' => match getitem v k with
                | Value x => getpath x ks'
                | Raised e => Raised e
                end
  end.

(** A float that is numerically 1: [m * 2^e = 1]. *)
Definition float_eq_one (f : spec_float) : bool :=
  match f with
  | S754_finite false m e => (e <=? 0) && (Z.pos m =? 2 ^ (- e))
  | _ => false
  end.

(** [v == True]: [bool] is a subclass of [int] and [True] is the number 1. *)
Definition py_eq_True (v : pyval) : bool :=
  match v with
  | PBool b => b
  | PInt z => z =? 1
  | PFloat f => float_eq_one f
  | _ => false
  end.

(** [v == s] for a string [s]. *)
Definition py_eq_str (v : pyval) (s : string) : bool :=
  match v with
  | PStr s' => bool_decide (s' = s)
  | _ => false
  end.

(** [v in (s1, s2, ...)]. *)
Definition py_in_tuple (v : pyval) (t : list string) : bool :=
  existsb (py_eq_str v) t.

(** [slug in s] for two strings: [slug] occurs in [s]. *)
Definition is_substring (slug s : string) : bool :=
  match String.index 0 slug s with
  | Some _ => true
  | None => false
  end.

(** [slug in container]. *)
Definition py_contains (container : pyval) (slug : string) : result bool :=
  match container with
  | PDict d => Value (bool_decide (is_Some (d !! slug)))
  | PList l => Value (existsb (fun x => py_eq_str x slug) l)
  | PStr s => Value (is_substring slug s)
  | _ => Raised TypeError
  end.

(** [prefix + v] for a string [prefix]. *)
Definition str_add (prefix : string) (v : pyval) : result string :=
  match v with
  | PStr s => Value (prefix +:+ s)
  | _ => Raised TypeError
  end.

(** [f'{v}']. *)
Definition format (env : Env) (v : pyval) : string :=
  match v with
  | PStr s => s
  | _ => str_of env v
  end.

(** Reading a local variable that may not have been assigned. *)
Definition local (name : string) (v : option pyval) : result pyval :=
  match v with
  | Some x => Value x
  | None => Raised (UnboundLocalError name)
  end.

(** ["; ".join(s.split("\n"))]. *)
Fixpoint join_lines (s : string) : string :=
  match s with
  | EmptyString => EmptyString
  | String c s' =>
      if Ascii.eqb c (Ascii.ascii_of_nat 10)
      then "; " +:+ join_lines s'
      else String c (join_lines s')
  end.

(** [resp.raise_for_status()] raises [HTTPError] for 4xx and 5xx. *)
Definition raise_for_status (resp : Response) : bool :=
  (400 <=? status_code resp) && (status_code resp <? 600).

(** ** Constants of the module *)

Definition RUNS_BASE_URL : string := "https://app.terraform.io/api/v2/runs/".
Definition WORKSPACE_BASE_URL : string :=
  "https://app.terraform.io/api/v2/workspaces/".
Definition ACCOUNT_URL : string :=
  "https://app.terraform.io/api/v2/account/details".
Definition GOOGLE_DEFAULT_AUTH_SCOPES : list string :=
  ["https://www.googleapis.com/auth/cloud-platform"].

Definition BAD_GATEWAY : reply :=
  mkReply {[ "status" := PStr "error";
             "msg" := PStr "Bad Gateway";
             "token" := PNone ]} (Some 502).

(** [REQUEST_SCHEMA]: the required keys, each of type [str]; [extra=False]
    is voluptuous' PREVENT_EXTRA. *)
Definition REQUEST_SCHEMA : list string := ["TFC_TOKEN"; "RUN_ID"].

Definition is_str (v : pyval) : bool :=
  match v with PStr _ => true | _ => false end.

(** [validate_with_humanized_errors(data, REQUEST_SCHEMA)] returns ([true])
    or raises a voluptuous error ([false]): the data must be a dict, hold
    every required key with a [str] value, and hold no other key. *)
Definition schema_accepts (data : pyval) : bool :=
  match data with
  | PDict d =>
      forallb (fun k => match d !! k with
                        | Some v => is_str v
                        | None => false
                        end) REQUEST_SCHEMA
      && bool_decide (dom d ⊆ list_to_set REQUEST_SCHEMA)
  | _ => false
  end.

(** ** The calls to other services *)

Definition http_get (env : Env) (url authorization : string) : Py Response :=
  ([EvGet url authorization],
   match requests_get env url authorization with
   | Responded resp => Normal resp
   | ConnectionFailed => Thrown RequestException
   end).

Definition iam_generate_access_token (env : Env) (name : string)
    (scope : list string) : Py string :=
  ([EvMint name scope],
   match generate_access_token env name scope with
   | Some access_token => Normal access_token
   | None => Thrown GoogleAPICallError
   end).

(** ** get_sa_token *)

Definition get_sa_token (env : Env) (creds_mapping : pyval)
    (tfc_ws_slug : string) : Py string :=
  sa ← lift (getitem creds_mapping tfc_ws_slug);
  let sa_ref := "projects/-/serviceAccounts/" +:+ format env sa in
  iam_generate_access_token env sa_ref GOOGLE_DEFAULT_AUTH_SCOPES.

(** ** generate_token *)

Definition missing_body_reply : reply :=
  mkReply {[ "status" := PStr "error";
             "message" := PStr "invalid or missing JSON request body" ]}
          (Some 400).

Definition schema_error_reply (env : Env) (request_json : pyval) : reply :=
  let base_msg := "Invalid JSON schema in request body from client" in
  let e_msg := join_lines (humanized_error env request_json) in
  mkReply {[ "status" := PStr "error";
             "message" := PStr (base_msg +:+ ": " +:+ e_msg);
             "token" := PNone ]} (Some 400).

Definition unauthorized_reply : reply :=
  mkReply {[ "status" := PStr "error";
             "msg" := PStr "Unauthorized";
             "token" := PNone ]} (Some 401).

Definition not_service_account_reply : reply :=
  mkReply {[ "status" := PStr "error";
             "msg" := PStr "Token does not belong to a service account";
             "token" := PNone ]} (Some 400).

Definition run_status_reply : reply :=
  mkReply {[ "status" := PStr "error";
             "msg" := PStr "run status not planning or applying";
             "token" := PNone ]} (Some 400).

Definition no_identity_reply (ws_slug : string) : reply :=
  mkReply {[ "status" := PStr "error";
             "msg" := PStr ("no identity for workspace: " +:+ ws_slug);
             "token" := PNone ]} (Some 404).

Definition success_reply (access_token : string) : reply :=
  mkReply {[ "status" := PStr "success";
             "token" := PStr access_token ]} None.

Definition expected_run_status : list string := ["planning"; "applying"].

(** Lines 162-198: workspace details, mapping lookup, minting. *)
Definition workspace_and_mint (env : Env) (parsed_mapping : pyval)
    (headers : string) (tfc_ws_id : pyval) : Py reply :=
  url ← lift (str_add WORKSPACE_BASE_URL tfc_ws_id);
  resp ← http_get env url headers;
  if raise_for_status resp then return_ BAD_GATEWAY else
  match json resp with
  | None => return_ BAD_GATEWAY
  | Some ws_json =>
      tfc_org ← lift (getpath ws_json
          ["data"; "relationships"; "organization"; "data"; "id"]);
      tfc_ws_name ← lift (getpath ws_json ["data"; "attributes"; "name"]);
      let ws_slug := format env tfc_org +:+ "/" +:+ format env tfc_ws_name in
      present ← lift (py_contains parsed_mapping ws_slug);
      if negb present then return_ (no_identity_reply ws_slug) else
      access_token ← get_sa_token env parsed_mapping ws_slug;
      return_ (success_reply access_token)
  end.

(** Lines 132-160: run details and the run status policy.  The HTTPError
    of [raise_for_status] is caught and logged, nothing else. *)
Definition run_details (env : Env) (parsed_mapping : pyval)
    (headers : string) (tfc_run_id : pyval) : Py reply :=
  url ← lift (str_add RUNS_BASE_URL tfc_run_id);
  resp ← http_get env url headers;
  let _logged := raise_for_status resp in
  match json resp with
  | None => return_ BAD_GATEWAY
  | Some run_json =>
      run_status ← lift (getpath run_json ["data"; "attributes"; "status"]);
      tfc_ws_id ← lift (getpath run_json
          ["data"; "relationships"; "workspace"; "data"; "id"]);
      if negb (py_in_tuple run_status expected_run_status)
      then return_ run_status_reply
      else workspace_and_mint env parsed_mapping headers tfc_ws_id
  end.

(** Lines 99-130: the account details call and the service account check. *)
Definition account_details (env : Env) (parsed_mapping : pyval)
    (tfc_token tfc_run_id : pyval) : Py reply :=
  let headers := "Bearer " +:+ format env tfc_token in
  resp ← http_get env ACCOUNT_URL headers;
  if raise_for_status resp then
    if status_code resp =? 401 then return_ unauthorized_reply
    else return_ BAD_GATEWAY
  else
  match json resp with
  | None => return_ BAD_GATEWAY
  | Some sess_json =>
      is_sa ← lift (getpath sess_json
                      ["data"; "attributes"; "is-service-account"]);
      if negb (py_eq_True is_sa) then return_ not_service_account_reply
      else run_details env parsed_mapping headers tfc_run_id
  end.

(** The handler.  Logging is left out: it does not change the result, and
    every expression it formats is defined on all values that reach it. *)
Definition generate_token (env : Env) : list event * outcome :=
  run (
    (* try: parsed_mapping = json.loads(SA_MAPPING); except: only a warning *)
    let parsed_mapping := loads_SA_MAPPING env in
    (* if not parsed_mapping: ... *)
    mapping ← lift (local "parsed_mapping" parsed_mapping);
    let request_json := get_json env in
    match request_json with
    | PNone => return_ missing_body_reply
    | _ =>
        if negb (schema_accepts request_json)
        then return_ (schema_error_reply env request_json)
        else
          tfc_token ← lift (getitem request_json "TFC_TOKEN");
          tfc_run_id ← lift (getitem request_json "RUN_ID");
          account_details env mapping tfc_token tfc_run_id
    end).

(** ** The replies of the handler

    The eight replies that the [return] statements of [generate_token]
    send, each with what the handler has found when it sends it. *)
Inductive possible_reply (env : Env) : reply -> Prop :=
| reply_missing_body :
    get_json env = PNone ->
    possible_reply env missing_body_reply
| reply_schema_error :
    schema_accepts (get_json env) = false ->
    possible_reply env (schema_error_reply env (get_json env))
| reply_unauthorized : possible_reply env unauthorized_reply
| reply_bad_gateway : possible_reply env BAD_GATEWAY
| reply_not_service_account : possible_reply env not_service_account_reply
| reply_run_status : possible_reply env run_status_reply
| reply_no_identity (mapping : pyval) (ws_slug : string) :
    loads_SA_MAPPING env = Some mapping ->
    py_contains mapping ws_slug = Value false ->
    possible_reply env (no_identity_reply ws_slug)
| reply_success (mapping : pyval) (ws_slug access_token : string) :
    loads_SA_MAPPING env = Some mapping ->
    py_contains mapping ws_slug = Value true ->
    possible_reply env (success_reply access_token).

(** ** A concrete deployment

    One exchange, used to run the handler: the body
    [{"TFC_TOKEN": "t1", "RUN_ID": "run-123"}], a service account token, a
    run that is planning in workspace [ws-1], which is [prod] of
    organization [org-a], mapped to [sa1@proj.iam]. *)

Definition json_account (is_sa : pyval) : pyval :=
  PDict {[ "data" := PDict {[ "attributes" :=
    PDict {[ "is-service-account" := is_sa ]} ]} ]}.

Definition json_run (run_status tfc_ws_id : pyval) : pyval :=
  PDict {[ "data" := PDict {[
    "attributes" := PDict {[ "status" := run_status ]};
    "relationships" := PDict {[ "workspace" :=
      PDict {[ "data" := PDict {[ "id" := tfc_ws_id ]} ]} ]} ]} ]}.

Definition json_workspace (tfc_org tfc_ws_name : pyval) : pyval :=
  PDict {[ "data" := PDict {[
    "attributes" := PDict {[ "name" := tfc_ws_name ]};
    "relationships" := PDict {[ "organization" :=
      PDict {[ "data" := PDict {[ "id" := tfc_org ]} ]} ]} ]} ]}.

(** The error document Terraform Cloud sends with a 404. *)
Definition json_not_found : pyval :=
  PDict {[ "errors" := PList [PDict {[ "status" := PStr "404";
                                       "title" := PStr "not found" ]}] ]}.

Definition ok (v : pyval) : get_result := Responded (mkResponse 200 (Some v)).

(** A platform that answers the three calls with the given results and
    nothing else. *)
Definition platform (account run workspace : get_result)
    (url authorization : string) : get_result :=
  if bool_decide (url = ACCOUNT_URL) then account
  else if bool_decide (url = RUNS_BASE_URL +:+ "run-123") then run
  else if bool_decide (url = WORKSPACE_BASE_URL +:+ "ws-1") then workspace
  else ConnectionFailed.

Definition iam_mock (name : string) (scope : list string) : option string :=
  if bool_decide (name = "projects/-/serviceAccounts/sa1@proj.iam")
  then Some "ya29.minted" else None.

Definition scenario_request : pyval :=
  PDict {[ "TFC_TOKEN" := PStr "t1"; "RUN_ID" := PStr "run-123" ]}.

Definition scenario_mapping : pyval :=
  PDict {[ "org-a/prod" := PStr "sa1@proj.iam" ]}.

Definition scenario (mapping : option pyval) (request_json : pyval)
    (account run workspace : get_result) : Env :=
  {| loads_SA_MAPPING := mapping;
     get_json := request_json;
     requests_get := platform account run workspace;
     generate_access_token := iam_mock;
     str_of := fun _ => "<str>";
     humanized_error := fun _ => "<errors>" |}.

(** The same exchange with another answer to one of the calls. *)
Definition scenario_with_account (account : get_result) : Env :=
  scenario (Some scenario_mapping) scenario_request
    account
    (ok (json_run (PStr "planning") (PStr "ws-1")))
    (ok (json_workspace (PStr "org-a") (PStr "prod"))).

Definition scenario_with_run (run : get_result) : Env :=
  scenario (Some scenario_mapping) scenario_request
    (ok (json_account (PBool true)))
    run
    (ok (json_workspace (PStr "org-a") (PStr "prod"))).

Definition scenario_with_mapping (mapping : option pyval) : Env :=
  scenario mapping scenario_request
    (ok (json_account (PBool true)))
    (ok (json_run (PStr "planning") (PStr "ws-1")))
    (ok (json_workspace (PStr "org-a") (PStr "prod"))).

Definition scenario_env : Env :=
  scenario (Some scenario_mapping) scenario_request
    (ok (json_account (PBool true)))
    (ok (json_run (PStr "planning") (PStr "ws-1")))
    (ok (json_workspace (PStr "org-a") (PStr "prod"))).

(** [m], with the calls [t] made before it. *)
Definition after {A} (t : list event) (m : Py A) : Py A :=
  ((t ++ m.1)%list, m.2).

(** [m] ends in no reply but one that satisfies [P]. *)
Definition replies (P : reply -> Prop) (m : Py reply) : Prop :=
  forall t r, run m = (t, Return r) -> P r.

(** ** The paths through the handler *)

(** The four calls of a complete exchange. *)
Definition account_call (tok : string) : event :=
  EvGet ACCOUNT_URL ("Bearer " +:+ tok).
Definition run_call (tok rid : string) : event :=
  EvGet (RUNS_BASE_URL +:+ rid) ("Bearer " +:+ tok).
Definition workspace_call (tok ws_id : string) : event :=
  EvGet (WORKSPACE_BASE_URL +:+ ws_id) ("Bearer " +:+ tok).
Definition mint_call (env : Env) (sa : pyval) : event :=
  EvMint ("projects/-/serviceAccounts/" +:+ format env sa)
         GOOGLE_DEFAULT_AUTH_SCOPES.

(** Lines 66-94 have passed: the mapping is parsed and the body is the
    object of the two strings. *)
Definition decoded (env : Env) (mapping : pyval) (tok rid : string) : Prop :=
  loads_SA_MAPPING env = Some mapping
  /\ get_json env =
     PDict {[ "TFC_TOKEN" := PStr tok; "RUN_ID" := PStr rid ]}.

(** Lines 99-130 have passed: the account details call answered without an
    HTTP error, with a document that says service account. *)
Definition validated (env : Env) (tok : string) : Prop :=
  exists acct sess_json is_sa,
    requests_get env ACCOUNT_URL ("Bearer " +:+ tok) = Responded acct
    /\ raise_for_status acct = false
    /\ json acct = Some sess_json
    /\ getpath sess_json ["data"; "attributes"; "is-service-account"]
       = Value is_sa
    /\ py_eq_True is_sa = true.

(** Lines 132-160 have passed: the run details call answered with a
    document of a run that is planning or applying, in workspace
    [tfc_ws_id]. *)
Definition eligible (env : Env) (tok rid : string) (tfc_ws_id : pyval)
    : Prop :=
  exists run_resp run_json run_status,
    requests_get env (RUNS_BASE_URL +:+ rid) ("Bearer " +:+ tok)
    = Responded run_resp
    /\ json run_resp = Some run_json
    /\ getpath run_json ["data"; "attributes"; "status"] = Value run_status
    /\ getpath run_json ["data"; "relationships"; "workspace"; "data"; "id"]
       = Value tfc_ws_id
    /\ (run_status = PStr "planning" \/ run_status = PStr "applying").

(** Lines 162-186 have passed: the workspace details call answered without
    an HTTP error, with a document that gives the slug [ws_slug]. *)
Definition resolved (env : Env) (tok ws_id ws_slug : string) : Prop :=
  exists ws_resp ws_json tfc_org tfc_ws_name,
    requests_get env (WORKSPACE_BASE_URL +:+ ws_id) ("Bearer " +:+ tok)
    = Responded ws_resp
    /\ raise_for_status ws_resp = false
    /\ json ws_resp = Some ws_json
    /\ getpath ws_json ["data"; "relationships"; "organization"; "data"; "id"]
       = Value tfc_org
    /\ getpath ws_json ["data"; "attributes"; "name"] = Value tfc_ws_name
    /\ ws_slug = format env tfc_org +:+ "/" +:+ format env tfc_ws_name.

(** Every way through [generate_token]: what the handler has observed, the
    calls it has made and how it ends. *)
Inductive handled (env : Env) : list event -> outcome -> Prop :=
| handled_unbound :
    loads_SA_MAPPING env = None ->
    handled env [] (Raise (UnboundLocalError "parsed_mapping"))
| handled_missing_body mapping :
    loads_SA_MAPPING env = Some mapping ->
    get_json env = PNone ->
    handled env [] (Return missing_body_reply)
| handled_schema_error mapping :
    loads_SA_MAPPING env = Some mapping ->
    get_json env <> PNone ->
    schema_accepts (get_json env) = false ->
    handled env [] (Return (schema_error_reply env (get_json env)))
| handled_account_failed mapping tok rid :
    decoded env mapping tok rid ->
    requests_get env ACCOUNT_URL ("Bearer " +:+ tok) = ConnectionFailed ->
    handled env [account_call tok] (Raise RequestException)
| handled_account_http_error mapping tok rid acct :
    decoded env mapping tok rid ->
    requests_get env ACCOUNT_URL ("Bearer " +:+ tok) = Responded acct ->
    raise_for_status acct = true ->
    handled env [account_call tok]
      (Return (if status_code acct =? 401 then unauthorized_reply
               else BAD_GATEWAY))
| handled_account_undecodable mapping tok rid acct :
    decoded env mapping tok rid ->
    requests_get env ACCOUNT_URL ("Bearer " +:+ tok) = Responded acct ->
    raise_for_status acct = false ->
    json acct = None ->
    handled env [account_call tok] (Return BAD_GATEWAY)
| handled_account_field mapping tok rid acct sess_json e :
    decoded env mapping tok rid ->
    requests_get env ACCOUNT_URL ("Bearer " +:+ tok) = Responded acct ->
    raise_for_status acct = false ->
    json acct = Some sess_json ->
    getpath sess_json ["data"; "attributes"; "is-service-account"]
    = Raised e ->
    handled env [account_call tok] (Raise e)
| handled_not_service_account mapping tok rid acct sess_json is_sa :
    decoded env mapping tok rid ->
    requests_get env ACCOUNT_URL ("Bearer " +:+ tok) = Responded acct ->
    raise_for_status acct = false ->
    json acct = Some sess_json ->
    getpath sess_json ["data"; "attributes"; "is-service-account"]
    = Value is_sa ->
    py_eq_True is_sa = false ->
    handled env [account_call tok] (Return not_service_account_reply)
| handled_run_failed mapping tok rid :
    decoded env mapping tok rid ->
    validated env tok ->
    requests_get env (RUNS_BASE_URL +:+ rid) ("Bearer " +:+ tok)
    = ConnectionFailed ->
    handled env [account_call tok; run_call tok rid] (Raise RequestException)
| handled_run_undecodable mapping tok rid run_resp :
    decoded env mapping tok rid ->
    validated env tok ->
    requests_get env (RUNS_BASE_URL +:+ rid) ("Bearer " +:+ tok)
    = Responded run_resp ->
    json run_resp = None ->
    handled env [account_call tok; run_call tok rid] (Return BAD_GATEWAY)
| handled_run_status_field mapping tok rid run_resp run_json e :
    decoded env mapping tok rid ->
    validated env tok ->
    requests_get env (RUNS_BASE_URL +:+ rid) ("Bearer " +:+ tok)
    = Responded run_resp ->
    json run_resp = Some run_json ->
    getpath run_json ["data"; "attributes"; "status"] = Raised e ->
    handled env [account_call tok; run_call tok rid] (Raise e)
| handled_run_workspace_field mapping tok rid run_resp run_json run_status e :
    decoded env mapping tok rid ->
    validated env tok ->
    requests_get env (RUNS_BASE_URL +:+ rid) ("Bearer " +:+ tok)
    = Responded run_resp ->
    json run_resp = Some run_json ->
    getpath run_json ["data"; "attributes"; "status"] = Value run_status ->
    getpath run_json ["data"; "relationships"; "workspace"; "data"; "id"]
    = Raised e ->
    handled env [account_call tok; run_call tok rid] (Raise e)
| handled_run_status mapping tok rid run_resp run_json run_status tfc_ws_id :
    decoded env mapping tok rid ->
    validated env tok ->
    requests_get env (RUNS_BASE_URL +:+ rid) ("Bearer " +:+ tok)
    = Responded run_resp ->
    json run_resp = Some run_json ->
    getpath run_json ["data"; "attributes"; "status"] = Value run_status ->
    getpath run_json ["data"; "relationships"; "workspace"; "data"; "id"]
    = Value tfc_ws_id ->
    py_in_tuple run_status expected_run_status = false ->
    handled env [account_call tok; run_call tok rid]
      (Return run_status_reply)
| handled_workspace_id_type mapping tok rid tfc_ws_id :
    decoded env mapping tok rid ->
    validated env tok ->
    eligible env tok rid tfc_ws_id ->
    is_str tfc_ws_id = false ->
    handled env [account_call tok; run_call tok rid] (Raise TypeError)
| handled_workspace_failed mapping tok rid ws_id :
    decoded env mapping tok rid ->
    validated env tok ->
    eligible env tok rid (PStr ws_id) ->
    requests_get env (WORKSPACE_BASE_URL +:+ ws_id) ("Bearer " +:+ tok)
    = ConnectionFailed ->
    handled env
      [account_call tok; run_call tok rid; workspace_call tok ws_id]
      (Raise RequestException)
| handled_workspace_http_error mapping tok rid ws_id ws_resp :
    decoded env mapping tok rid ->
    validated env tok ->
    eligible env tok rid (PStr ws_id) ->
    requests_get env (WORKSPACE_BASE_URL +:+ ws_id) ("Bearer " +:+ tok)
    = Responded ws_resp ->
    raise_for_status ws_resp = true ->
    handled env
      [account_call tok; run_call tok rid; workspace_call tok ws_id]
      (Return BAD_GATEWAY)
| handled_workspace_undecodable mapping tok rid ws_id ws_resp :
    decoded env mapping tok rid ->
    validated env tok ->
    eligible env tok rid (PStr ws_id) ->
    requests_get env (WORKSPACE_BASE_URL +:+ ws_id) ("Bearer " +:+ tok)
    = Responded ws_resp ->
    raise_for_status ws_resp = false ->
    json ws_resp = None ->
    handled env
      [account_call tok; run_call tok rid; workspace_call tok ws_id]
      (Return BAD_GATEWAY)
| handled_workspace_org_field mapping tok rid ws_id ws_resp ws_json e :
    decoded env mapping tok rid ->
    validated env tok ->
    eligible env tok rid (PStr ws_id) ->
    requests_get env (WORKSPACE_BASE_URL +:+ ws_id) ("Bearer " +:+ tok)
    = Responded ws_resp ->
    raise_for_status ws_resp = false ->
    json ws_resp = Some ws_json ->
    getpath ws_json ["data"; "relationships"; "organization"; "data"; "id"]
    = Raised e ->
    handled env
      [account_call tok; run_call tok rid; workspace_call tok ws_id]
      (Raise e)
| handled_workspace_name_field mapping tok rid ws_id ws_resp ws_json
    tfc_org e :
    decoded env mapping tok rid ->
    validated env tok ->
    eligible env tok rid (PStr ws_id) ->
    requests_get env (WORKSPACE_BASE_URL +:+ ws_id) ("Bearer " +:+ tok)
    = Responded ws_resp ->
    raise_for_status ws_resp = false ->
    json ws_resp = Some ws_json ->
    getpath ws_json ["data"; "relationships"; "organization"; "data"; "id"]
    = Value tfc_org ->
    getpath ws_json ["data"; "attributes"; "name"] = Raised e ->
    handled env
      [account_call tok; run_call tok rid; workspace_call tok ws_id]
      (Raise e)
| handled_mapping_type mapping tok rid ws_id ws_slug e :
    decoded env mapping tok rid ->
    validated env tok ->
    eligible env tok rid (PStr ws_id) ->
    resolved env tok ws_id ws_slug ->
    py_contains mapping ws_slug = Raised e ->
    handled env
      [account_call tok; run_call tok rid; workspace_call tok ws_id]
      (Raise e)
| handled_no_identity mapping tok rid ws_id ws_slug :
    decoded env mapping tok rid ->
    validated env tok ->
    eligible env tok rid (PStr ws_id) ->
    resolved env tok ws_id ws_slug ->
    py_contains mapping ws_slug = Value false ->
    handled env
      [account_call tok; run_call tok rid; workspace_call tok ws_id]
      (Return (no_identity_reply ws_slug))
| handled_mapping_index mapping tok rid ws_id ws_slug e :
    decoded env mapping tok rid ->
    validated env tok ->
    eligible env tok rid (PStr ws_id) ->
    resolved env tok ws_id ws_slug ->
    py_contains mapping ws_slug = Value true ->
    getitem mapping ws_slug = Raised e ->
    handled env
      [account_call tok; run_call tok rid; workspace_call tok ws_id]
      (Raise e)
| handled_mint_failed mapping tok rid ws_id ws_slug sa :
    decoded env mapping tok rid ->
    validated env tok ->
    eligible env tok rid (PStr ws_id) ->
    resolved env tok ws_id ws_slug ->
    py_contains mapping ws_slug = Value true ->
    getitem mapping ws_slug = Value sa ->
    generate_access_token env
      ("projects/-/serviceAccounts/" +:+ format env sa)
      GOOGLE_DEFAULT_AUTH_SCOPES = None ->
    handled env
      [account_call tok; run_call tok rid; workspace_call tok ws_id;
       mint_call env sa]
      (Raise GoogleAPICallError)
| handled_success mapping tok rid ws_id ws_slug sa access_token :
    decoded env mapping tok rid ->
    validated env tok ->
    eligible env tok rid (PStr ws_id) ->
    resolved env tok ws_id ws_slug ->
    py_contains mapping ws_slug = Value true ->
    getitem mapping ws_slug = Value sa ->
    generate_access_token env
      ("projects/-/serviceAccounts/" +:+ format env sa)
      GOOGLE_DEFAULT_AUTH_SCOPES = Some access_token ->
    handled env
      [account_call tok; run_call tok rid; workspace_call tok ws_id;
       mint_call env sa]
      (Return (success_reply access_token)).

(** [m] ends with calls and a completion that satisfy [Q]. *)
Definition ends {A} (Q : list event -> completion A -> Prop) (m : Py A)
    : Prop :=
  Q m.1 m.2.

Definition outcome_of (c : completion reply) : outcome :=
  match c with
  | Normal r => Return r
  | Returned r => Return r
  | Thrown e => Raise e
  end.

(** The line feed that [str.split] looks for in line 87. *)
Definition newline : Ascii.ascii := Ascii.ascii_of_nat 10.

(** The same answer with another status code. *)
Definition set_status (s : Z) (answer : get_result) : get_result :=
  match answer with
  | Responded resp => Responded (mkResponse s (json resp))
  | ConnectionFailed => ConnectionFailed
  end.

(** The world in which the answers of [url] come with status code [s]. *)
Definition with_status_at (env : Env) (url : string) (s : Z) : Env :=
  {| loads_SA_MAPPING := loads_SA_MAPPING env;
     get_json := get_json env;
     requests_get := fun u authorization =>
       if bool_decide (u = url)
       then set_status s (requests_get env u authorization)
       else requests_get env u authorization;
     generate_access_token := generate_access_token env;
     str_of := str_of env;
     humanized_error := humanized_error env |}.

(** The world in which SA_MAPPING_CONFIG parses to [mapping]. *)
Definition with_mapping (env : Env) (mapping : pyval) : Env :=
  {| loads_SA_MAPPING := Some mapping;
     get_json := get_json env;
     requests_get := requests_get env;
     generate_access_token := generate_access_token env;
     str_of := str_of env;
     humanized_error := humanized_error env |}.

(** * Properties *)

Example scenario_mints :
  generate_token scenario_env =
  ([EvGet ACCOUNT_URL "Bearer t1";
    EvGet (RUNS_BASE_URL +:+ "run-123") "Bearer t1";
    EvGet (WORKSPACE_BASE_URL +:+ "ws-1") "Bearer t1";
    EvMint "projects/-/serviceAccounts/sa1@proj.iam"
           GOOGLE_DEFAULT_AUTH_SCOPES],
   Return (success_reply "ya29.minted")).
Proof. vm_compute. reflexivity. Qed.

(** A body with a field too many is refused with the schema error. *)
Example extra_field_refused :
  generate_token
    (scenario (Some scenario_mapping)
       (PDict {[ "TFC_TOKEN" := PStr "t1"; "RUN_ID" := PStr "run-123";
                 "debug" := PBool true ]})
       ConnectionFailed ConnectionFailed ConnectionFailed)
  = ([], Return (mkReply
       {[ "status" := PStr "error";
          "message" := PStr
            "Invalid JSON schema in request body from client: <errors>";
          "token" := PNone ]} (Some 400))).
Proof. vm_compute. reflexivity. Qed.

(** A mapping that is a JSON array holding the slug passes the [in] test
    and then cannot be indexed by the slug. *)
Example array_mapping_raises :
  generate_token (scenario_with_mapping (Some (PList [PStr "org-a/prod"])))
  = ([EvGet ACCOUNT_URL "Bearer t1";
      EvGet (RUNS_BASE_URL +:+ "run-123") "Bearer t1";
      EvGet (WORKSPACE_BASE_URL +:+ "ws-1") "Bearer t1"],
     Raise TypeError).
Proof. vm_compute. reflexivity. Qed.

(** A mapping that is [null] cannot be searched. *)
Example null_mapping_raises :
  (generate_token (scenario_with_mapping (Some PNone))).2 = Raise TypeError.
Proof. vm_compute. reflexivity. Qed.

(** The minting call fails: the exception leaves the handler. *)
Example minting_failure_raises :
  (generate_token
     (scenario_with_mapping
        (Some (PDict {[ "org-a/prod" := PStr "unknown@proj.iam" ]})))).2
  = Raise GoogleAPICallError.
Proof. vm_compute. reflexivity. Qed.

(** ** The monad *)

Lemma bind_lift_value {A B} (r : result A) (a : A) (k : A -> Py B) :
  r = Value a -> (lift r ≫= k) = k a.
Proof.
  intros ->. unfold mbind, Py_bind, bind, lift, pure.
  destruct (k a) as [t o]. reflexivity.
Qed.

Lemma bind_after {A B} (t : list event) (a : A) (k : A -> Py B) :
  ((t, Normal a) ≫= k) = after t (k a).
Proof.
  unfold mbind, Py_bind, bind, after. destruct (k a) as [t' o]. reflexivity.
Qed.

Lemma run_after (t : list event) (m : Py reply) :
  run (after t m) = ((t ++ (run m).1)%list, (run m).2).
Proof. destruct m as [t' [r | r | e]]; reflexivity. Qed.

Lemma after_after {A} (t t' : list event) (m : Py A) :
  after t (after t' m) = after (t ++ t')%list m.
Proof. unfold after. simpl. by rewrite app_assoc. Qed.

(** ** The request schema *)

Lemma schema_accepts_request (tok rid : string) :
  schema_accepts (PDict {[ "TFC_TOKEN" := PStr tok; "RUN_ID" := PStr rid ]})
  = true.
Proof. vm_compute. reflexivity. Qed.

(** The accepted bodies are exactly the two-field objects of strings. *)
Lemma schema_accepts_inv (v : pyval) :
  schema_accepts v = true ->
  exists tok rid,
    v = PDict {[ "TFC_TOKEN" := PStr tok; "RUN_ID" := PStr rid ]}.
Proof.
  destruct v as [| | | | | |d]; try discriminate. simpl.
  destruct (d !! "TFC_TOKEN") as [[| | | |tok| |]|] eqn:Ht; try discriminate.
  destruct (d !! "RUN_ID") as [[| | | |rid| |]|] eqn:Hr; try discriminate.
  simpl. intros Hdom%bool_decide_eq_true.
  exists tok, rid. f_equal. apply map_eq. intros k.
  destruct (decide (k = "TFC_TOKEN")) as [->|Hk1].
  { by rewrite lookup_insert_eq. }
  rewrite lookup_insert_ne by done.
  destruct (decide (k = "RUN_ID")) as [->|Hk2].
  { by rewrite lookup_singleton_eq. }
  rewrite lookup_singleton_ne by done.
  apply not_elem_of_dom. intros Hin%Hdom.
  set_unfold in Hin. tauto.
Qed.


(** ** Every reply of the handler *)

Lemma replies_return (P : reply -> Prop) (r : reply) :
  P r -> replies P (return_ r).
Proof. intros HP t r' [= _ <-]. exact HP. Qed.

Lemma replies_bind {A} (P : reply -> Prop) (m : Py A) (k : A -> Py reply) :
  (forall r, m.2 = Returned r -> P r) ->
  (forall a, m.2 = Normal a -> replies P (k a)) ->
  replies P (m ≫= k).
Proof.
  intros Hret Hk t r. destruct m as [t1 [a | r1 | e]]; simpl in *.
  - specialize (Hk a eq_refl). unfold mbind, Py_bind, bind.
    destruct (k a) as [t2 c] eqn:Hka. intros Hrun.
    apply (Hk t2 r). destruct c; simpl in *; congruence.
  - intros [= _ <-]. by apply Hret.
  - discriminate.
Qed.

Lemma replies_lift {A} (P : reply -> Prop) (x : result A)
    (k : A -> Py reply) :
  (forall a, x = Value a -> replies P (k a)) ->
  replies P (lift x ≫= k).
Proof.
  intros Hk. apply replies_bind; destruct x; simpl; try discriminate.
  intros a' [= <-]. by apply Hk.
Qed.

Lemma replies_http_get (P : reply -> Prop) (env : Env)
    (url authorization : string) (k : Response -> Py reply) :
  (forall resp, requests_get env url authorization = Responded resp ->
                replies P (k resp)) ->
  replies P (http_get env url authorization ≫= k).
Proof.
  intros Hk. apply replies_bind; unfold http_get; simpl;
    destruct (requests_get env url authorization); try discriminate.
  intros a [= <-]. by apply Hk.
Qed.

Lemma replies_mint (P : reply -> Prop) (env : Env) (mapping : pyval)
    (slug : string) (k : string -> Py reply) :
  (forall access_token, replies P (k access_token)) ->
  replies P (get_sa_token env mapping slug ≫= k).
Proof.
  intros Hk. apply replies_bind.
  - unfold get_sa_token, iam_generate_access_token.
    destruct (getitem mapping slug) as [sa|e]; simpl; [|discriminate].
    unfold mbind, Py_bind, bind. simpl.
    destruct (generate_access_token env _ _); discriminate.
  - intros a _. apply Hk.
Qed.

Lemma workspace_and_mint_replies (env : Env) (mapping : pyval)
    (h : string) (tfc_ws_id : pyval) :
  loads_SA_MAPPING env = Some mapping ->
  replies (possible_reply env) (workspace_and_mint env mapping h tfc_ws_id).
Proof.
  intros Hloads. unfold workspace_and_mint.
  apply replies_lift. intros url _.
  apply replies_http_get. intros resp _.
  destruct (raise_for_status resp);
    [apply replies_return; constructor|].
  destruct (json resp) as [ws_json|];
    [|apply replies_return; constructor].
  apply replies_lift. intros tfc_org _.
  apply replies_lift. intros tfc_ws_name _.
  apply replies_lift. intros present Hpresent.
  destruct present; cbn [negb].
  - apply replies_mint. intros access_token. apply replies_return.
    by eapply reply_success.
  - apply replies_return. by eapply reply_no_identity.
Qed.

Lemma run_details_replies (env : Env) (mapping : pyval)
    (h : string) (tfc_run_id : pyval) :
  loads_SA_MAPPING env = Some mapping ->
  replies (possible_reply env) (run_details env mapping h tfc_run_id).
Proof.
  intros Hloads. unfold run_details.
  apply replies_lift. intros url _.
  apply replies_http_get. intros resp _.
  destruct (json resp) as [run_json|];
    [|apply replies_return; constructor].
  apply replies_lift. intros run_status _.
  apply replies_lift. intros tfc_ws_id _.
  destruct (py_in_tuple run_status expected_run_status); cbn [negb].
  - by apply workspace_and_mint_replies.
  - apply replies_return. constructor.
Qed.

Lemma account_details_replies (env : Env)
    (mapping tfc_token tfc_run_id : pyval) :
  loads_SA_MAPPING env = Some mapping ->
  replies (possible_reply env)
          (account_details env mapping tfc_token tfc_run_id).
Proof.
  intros Hloads. unfold account_details.
  apply replies_http_get. intros resp _.
  destruct (raise_for_status resp).
  { destruct (status_code resp =? 401); apply replies_return; constructor. }
  destruct (json resp) as [sess_json|];
    [|apply replies_return; constructor].
  apply replies_lift. intros is_sa _.
  destruct (py_eq_True is_sa); cbn [negb].
  - by apply run_details_replies.
  - apply replies_return. constructor.
Qed.

(** Whatever the handler returns is one of these eight replies. *)
Lemma generate_token_possible_reply (env : Env) (t : list event) (r : reply) :
  generate_token env = (t, Return r) -> possible_reply env r.
Proof.
  unfold generate_token.
  destruct (loads_SA_MAPPING env) as [mapping|] eqn:Hloads; [|discriminate].
  revert t r. fold (replies (possible_reply env)).
  apply replies_lift. intros ? [= <-].
  destruct (schema_accepts (get_json env)) eqn:Hschema.
  - destruct (schema_accepts_inv _ Hschema) as (tok & rid & Hreq).
    rewrite Hreq. cbn [negb].
    apply replies_lift. intros tfc_token _.
    apply replies_lift. intros tfc_run_id _.
    by apply account_details_replies.
  - cbn [negb].
    destruct (get_json env) eqn:Hreq;
      apply replies_return; rewrite <- ?Hreq;
      first [ by apply reply_missing_body
            | apply reply_schema_error; by rewrite Hreq ].
Qed.

(** Of these, only the success reply has status 200. *)
Lemma possible_reply_200 (env : Env) (r : reply) :
  possible_reply env r -> http_status r = 200 ->
  exists mapping ws_slug access_token,
    loads_SA_MAPPING env = Some mapping
    /\ py_contains mapping ws_slug = Value true
    /\ r = success_reply access_token.
Proof. intros [] Hstatus; try discriminate. eauto 6. Qed.



(** With an empty mapping no reply has status 200. *)
Lemma empty_mapping_never_200 (env : Env) (t : list event) (r : reply) :
  loads_SA_MAPPING env = Some (PDict ∅) ->
  generate_token env = (t, Return r) ->
  http_status r <> 200.
Proof.
  intros Hloads Hrun%generate_token_possible_reply Hstatus.
  destruct (possible_reply_200 _ _ Hrun Hstatus)
    as (mapping & ws_slug & access_token & Hloads' & Hin & _).
  rewrite Hloads in Hloads'. injection Hloads' as <-.
  simpl in Hin. injection Hin as Hin.
  apply bool_decide_eq_true in Hin as [x Hx].
  by rewrite lookup_empty in Hx.
Qed.

(** ** Before the request is read *)

(** C9: when SA_MAPPING_CONFIG is not valid JSON, [json.loads] raises, the
    handler only logs a warning, and the next statement reads
    [parsed_mapping], which was never assigned: every invocation raises
    UnboundLocalError before any call is made, whatever the request, and so
    returns no reply at all (in particular not the 404 of an empty
    mapping). *)
Theorem invalid_mapping_config_raises (env : Env) :
  loads_SA_MAPPING env = None ->
  generate_token env = ([], Raise (UnboundLocalError "parsed_mapping"))
  /\ forall r, (generate_token env).2 <> Return r.
Proof.
  intros Hloads. unfold generate_token. rewrite Hloads. simpl.
  split; [reflexivity | discriminate].
Qed.

(** C2, at the input where it fails: a request without a JSON body is
    answered 400 with a body that has the error marker and a message, but no
    [token] key at all, unlike every other error reply of the handler. *)
Theorem missing_body_reply_has_no_token (env : Env) (mapping : pyval) :
  loads_SA_MAPPING env = Some mapping ->
  get_json env = PNone ->
  generate_token env = ([], Return missing_body_reply)
  /\ http_status missing_body_reply = 400
  /\ body missing_body_reply !! "status" = Some (PStr "error")
  /\ body missing_body_reply !! "message" =
       Some (PStr "invalid or missing JSON request body")
  /\ body missing_body_reply !! "token" = None.
Proof.
  intros Hloads Hbody. unfold generate_token. rewrite Hloads, Hbody.
  repeat split; vm_compute; reflexivity.
Qed.

(** ** Python comparisons *)

Lemma py_eq_True_spec (v : pyval) :
  py_eq_True v = true <->
  v = PBool true \/ v = PInt 1
  \/ exists f, v = PFloat f /\ float_eq_one f = true.
Proof.
  destruct v as [|b|z|f|s|l|d]; simpl.
  - split; [discriminate|]. intros [?|[?|(?&?&_)]]; discriminate.
  - split; [intros ->; by left|]. intros [[= ->]|[?|(?&?&_)]]; done.
  - rewrite Z.eqb_eq. split; [intros ->; right; by left|].
    intros [?|[[= ->]|(?&?&_)]]; done.
  - split; [intros Hf; right; right; by exists f|].
    intros [?|[?|(f'&[= <-]&Hf)]]; done.
  - split; [discriminate|]. intros [?|[?|(?&?&_)]]; discriminate.
  - split; [discriminate|]. intros [?|[?|(?&?&_)]]; discriminate.
  - split; [discriminate|]. intros [?|[?|(?&?&_)]]; discriminate.
Qed.

Lemma py_in_expected_run_status (v : pyval) :
  py_in_tuple v expected_run_status = true <->
  v = PStr "planning" \/ v = PStr "applying".
Proof.
  unfold py_in_tuple, expected_run_status. simpl. rewrite orb_false_r.
  rewrite orb_true_iff. unfold py_eq_str.
  destruct v as [| | | |s| |];
    try (split; [intros [?|?]; discriminate | intros [?|?]; discriminate]).
  rewrite !bool_decide_eq_true.
  split; (intros [H|H]; [left|right]); congruence.
Qed.

Example float_one_equals_True :
  py_eq_True (PFloat (S754_finite false 4503599627370496 (-52))) = true.
Proof. reflexivity. Qed.

(** ** After the request is decoded *)

Section Decoded.

Variables (env : Env) (mapping : pyval) (tok rid : string).

Hypothesis Hmapping : loads_SA_MAPPING env = Some mapping.
Hypothesis Hrequest :
  get_json env = PDict {[ "TFC_TOKEN" := PStr tok; "RUN_ID" := PStr rid ]}.

Lemma generate_token_decoded :
  generate_token env = run (account_details env mapping (PStr tok) (PStr rid)).
Proof.
  unfold generate_token. rewrite Hmapping, Hrequest.
  rewrite (bind_lift_value _ mapping) by reflexivity.
  rewrite schema_accepts_request. cbv [negb].
  rewrite (bind_lift_value _ (PStr tok)) by (vm_compute; reflexivity).
  rewrite (bind_lift_value _ (PStr rid)) by (vm_compute; reflexivity).
  reflexivity.
Qed.

Local Abbreviation headers := ("Bearer " +:+ tok).

(** *** The account details call has answered *)

Section AccountResponded.

Variable acct : Response.
Hypothesis Haccount : requests_get env ACCOUNT_URL headers = Responded acct.

Lemma account_details_responded :
  account_details env mapping (PStr tok) (PStr rid) =
  after [EvGet ACCOUNT_URL headers]
    (if raise_for_status acct then
       if status_code acct =? 401 then return_ unauthorized_reply
       else return_ BAD_GATEWAY
     else
       match json acct with
       | None => return_ BAD_GATEWAY
       | Some sess_json =>
           is_sa ← lift (getpath sess_json
                           ["data"; "attributes"; "is-service-account"]);
           if negb (py_eq_True is_sa) then return_ not_service_account_reply
           else run_details env mapping headers (PStr rid)
       end).
Proof.
  unfold account_details, http_get. cbn [format]. rewrite Haccount.
  apply bind_after.
Qed.

Lemma account_http_error_reply :
  raise_for_status acct = true ->
  generate_token env =
  ([EvGet ACCOUNT_URL headers],
   Return (if status_code acct =? 401 then unauthorized_reply
           else BAD_GATEWAY)).
Proof.
  intros Herr. rewrite generate_token_decoded, account_details_responded, Herr.
  destruct (status_code acct =? 401); reflexivity.
Qed.

Lemma account_undecodable_reply :
  raise_for_status acct = false ->
  json acct = None ->
  generate_token env = ([EvGet ACCOUNT_URL headers], Return BAD_GATEWAY).
Proof.
  intros Hok Hjson.
  rewrite generate_token_decoded, account_details_responded, Hok, Hjson.
  reflexivity.
Qed.

(** C5, amended: when the account details call answers with an HTTP error
    status (400 to 599), a 401 is passed on as exactly 401 with a null
    token, and every other such status gives the constant 502 Bad Gateway
    reply, which carries nothing of what the platform sent. *)
Theorem account_http_error (Herr : raise_for_status acct = true) :
  (status_code acct = 401 ->
     generate_token env =
       ([EvGet ACCOUNT_URL headers], Return unauthorized_reply)
     /\ http_status unauthorized_reply = 401
     /\ body unauthorized_reply !! "token" = Some PNone)
  /\ (status_code acct <> 401 ->
     generate_token env = ([EvGet ACCOUNT_URL headers], Return BAD_GATEWAY)
     /\ http_status BAD_GATEWAY = 502
     /\ body BAD_GATEWAY =
          {[ "status" := PStr "error"; "msg" := PStr "Bad Gateway";
             "token" := PNone ]}).
Proof.
  rewrite (account_http_error_reply Herr). split.
  - intros ->. repeat split. 
  - intros Hne. apply Z.eqb_neq in Hne. rewrite Hne. repeat split.
Qed.

(** C4, amended: an account details body that is not JSON gives the 502 Bad
    Gateway reply, whatever the status code, 401 apart. *)
Theorem account_body_not_json
    (Hstatus : status_code acct <> 401) (Hjson : json acct = None) :
  generate_token env = ([EvGet ACCOUNT_URL headers], Return BAD_GATEWAY)
  /\ http_status BAD_GATEWAY = 502.
Proof.
  split; [|reflexivity].
  destruct (raise_for_status acct) eqn:Hraise.
  - rewrite (account_http_error_reply Hraise).
    apply Z.eqb_neq in Hstatus. by rewrite Hstatus.
  - by apply account_undecodable_reply.
Qed.

(** *** The token is valid and the account document is read *)

Section Validated.

Variables (sess_json is_sa : pyval).
Hypothesis Hvalid : raise_for_status acct = false.
Hypothesis Hsess : json acct = Some sess_json.
Hypothesis Hflag :
  getpath sess_json ["data"; "attributes"; "is-service-account"] = Value is_sa.

Lemma generate_token_validated :
  generate_token env =
  run (after [EvGet ACCOUNT_URL headers]
         (if negb (py_eq_True is_sa) then return_ not_service_account_reply
          else run_details env mapping headers (PStr rid))).
Proof.
  rewrite generate_token_decoded, account_details_responded, Hvalid, Hsess.
  by rewrite (bind_lift_value _ is_sa).
Qed.

Lemma not_service_account_rejected :
  py_eq_True is_sa = false ->
  generate_token env =
  ([EvGet ACCOUNT_URL headers], Return not_service_account_reply).
Proof. intros Hne. rewrite generate_token_validated, Hne. reflexivity. Qed.

Lemma service_account_proceeds :
  py_eq_True is_sa = true ->
  exists t o,
    generate_token env =
    (EvGet ACCOUNT_URL headers
       :: EvGet (RUNS_BASE_URL +:+ rid) headers :: t, o).
Proof.
  intros Heq. rewrite generate_token_validated, Heq. cbn [negb].
  rewrite run_after. unfold run_details.
  rewrite (bind_lift_value _ (RUNS_BASE_URL +:+ rid)) by reflexivity.
  unfold http_get.
  destruct (requests_get env (RUNS_BASE_URL +:+ rid) headers) as [resp|].
  - rewrite bind_after. rewrite run_after. cbn [app]. eauto.
  - cbn. eauto.
Qed.

(** C7: a valid token whose account document says
    [is-service-account: false] is answered 400, with the message that the
    token does not belong to a service account; no further call is made. *)
Theorem human_token_rejected (Hhuman : is_sa = PBool false) :
  generate_token env =
    ([EvGet ACCOUNT_URL headers], Return not_service_account_reply)
  /\ http_status not_service_account_reply = 400
  /\ body not_service_account_reply !! "msg" =
       Some (PStr "Token does not belong to a service account")
  /\ body not_service_account_reply !! "token" = Some PNone.
Proof.
  split; [|by vm_compute].
  apply not_service_account_rejected. by rewrite Hhuman.
Qed.

(** C10: the check is Python's [!= True].  A value equal to [True] (the
    boolean itself, the integer 1, a float that is 1) passes, and the run
    details call is made next; every other value, the string ["true"]
    included, is answered 400. *)
Theorem service_account_check_is_equality_with_True :
  (py_eq_True is_sa = true ->
     exists t o,
       generate_token env =
       (EvGet ACCOUNT_URL headers
          :: EvGet (RUNS_BASE_URL +:+ rid) headers :: t, o))
  /\ (py_eq_True is_sa = false ->
     generate_token env =
       ([EvGet ACCOUNT_URL headers], Return not_service_account_reply)
     /\ http_status not_service_account_reply = 400)
  /\ (forall v, py_eq_True v = true <->
        v = PBool true \/ v = PInt 1
        \/ exists f, v = PFloat f /\ float_eq_one f = true)
  /\ py_eq_True (PInt 1) = true
  /\ py_eq_True (PStr "true") = false.
Proof.
  split; [apply service_account_proceeds|].
  split; [intros Hne; split; [by apply not_service_account_rejected|done]|].
  split; [apply py_eq_True_spec|done].
Qed.

(** *** The token belongs to a service account and the run call has answered *)

Section RunResponded.

Variable run_resp : Response.
Hypothesis Hsa : py_eq_True is_sa = true.
Hypothesis Hrun :
  requests_get env (RUNS_BASE_URL +:+ rid) headers = Responded run_resp.

Local Abbreviation run_calls :=
  [EvGet ACCOUNT_URL headers; EvGet (RUNS_BASE_URL +:+ rid) headers].

Lemma generate_token_run_responded :
  generate_token env =
  run (after run_calls
         match json run_resp with
         | None => return_ BAD_GATEWAY
         | Some run_json =>
             run_status ← lift (getpath run_json
                                  ["data"; "attributes"; "status"]);
             tfc_ws_id ← lift (getpath run_json
                 ["data"; "relationships"; "workspace"; "data"; "id"]);
             if negb (py_in_tuple run_status expected_run_status)
             then return_ run_status_reply
             else workspace_and_mint env mapping headers tfc_ws_id
         end).
Proof.
  rewrite generate_token_validated, Hsa. cbn [negb]. unfold run_details.
  rewrite (bind_lift_value _ (RUNS_BASE_URL +:+ rid)) by reflexivity.
  unfold http_get. rewrite Hrun, bind_after, after_after. reflexivity.
Qed.

Lemma run_undecodable_reply :
  json run_resp = None ->
  generate_token env = (run_calls, Return BAD_GATEWAY).
Proof. intros Hjson. rewrite generate_token_run_responded, Hjson. done. Qed.

Lemma generate_token_run_decoded (run_json run_status tfc_ws_id : pyval) :
  json run_resp = Some run_json ->
  getpath run_json ["data"; "attributes"; "status"] = Value run_status ->
  getpath run_json ["data"; "relationships"; "workspace"; "data"; "id"]
    = Value tfc_ws_id ->
  generate_token env =
  run (after run_calls
         (if negb (py_in_tuple run_status expected_run_status)
          then return_ run_status_reply
          else workspace_and_mint env mapping headers tfc_ws_id)).
Proof.
  intros Hjson Hstatus Hws. rewrite generate_token_run_responded, Hjson.
  rewrite (bind_lift_value _ run_status) by done.
  by rewrite (bind_lift_value _ tfc_ws_id).
Qed.

Lemma workspace_call_is_made (ws_id : string) :
  exists t c,
    workspace_and_mint env mapping headers (PStr ws_id)
    = (EvGet (WORKSPACE_BASE_URL +:+ ws_id) headers :: t, c).
Proof.
  unfold workspace_and_mint.
  rewrite (bind_lift_value _ (WORKSPACE_BASE_URL +:+ ws_id)) by reflexivity.
  unfold http_get.
  destruct (requests_get env (WORKSPACE_BASE_URL +:+ ws_id) headers)
    as [resp|].
  - rewrite bind_after. unfold after. cbn [app]. eauto.
  - cbn. eauto.
Qed.

(** C3, amended: an HTTP error status of the run details call stops
    nothing.  The body is decoded all the same: when it is not JSON the
    reply is 502, and when it holds the status and the workspace id, a
    status outside planning and applying is answered 400, and for a run
    that is planning or applying, with a string as workspace id, the
    workspace details call is made next. *)
Theorem run_http_error_is_not_fatal
    (Herr : raise_for_status run_resp = true) :
  (json run_resp = None ->
     generate_token env = (run_calls, Return BAD_GATEWAY)
     /\ http_status BAD_GATEWAY = 502)
  /\ (forall run_json run_status tfc_ws_id,
        json run_resp = Some run_json ->
        getpath run_json ["data"; "attributes"; "status"]
          = Value run_status ->
        getpath run_json ["data"; "relationships"; "workspace"; "data"; "id"]
          = Value tfc_ws_id ->
        (run_status <> PStr "planning" ->
         run_status <> PStr "applying" ->
           generate_token env = (run_calls, Return run_status_reply)
           /\ http_status run_status_reply = 400)
        /\ (forall ws_id,
             run_status = PStr "planning" \/ run_status = PStr "applying" ->
             tfc_ws_id = PStr ws_id ->
             exists t o,
               generate_token env =
               (EvGet ACCOUNT_URL headers
                  :: EvGet (RUNS_BASE_URL +:+ rid) headers
                  :: EvGet (WORKSPACE_BASE_URL +:+ ws_id) headers :: t,
                o))).
Proof.
  split.
  - intros Hjson. split; [by apply run_undecodable_reply|done].
  - intros run_json run_status tfc_ws_id Hjson Hstatus Hws.
    rewrite (generate_token_run_decoded _ _ _ Hjson Hstatus Hws).
    split.
    + intros Hplanning Happlying.
      destruct (py_in_tuple run_status expected_run_status) eqn:Hin;
        [|done].
      apply py_in_expected_run_status in Hin as [?|?]; done.
    + intros ws_id Heligible%py_in_expected_run_status ->.
      rewrite Heligible. cbn [negb].
      destruct (workspace_call_is_made ws_id) as (t & c & ->).
      rewrite run_after. destruct c; cbn; eauto.
Qed.

(** *** The run document is read *)

Section RunDecoded.

Variables (run_json run_status tfc_ws_id : pyval).
Hypothesis Hrun_json : json run_resp = Some run_json.
Hypothesis Hrun_status :
  getpath run_json ["data"; "attributes"; "status"] = Value run_status.
Hypothesis Hrun_ws :
  getpath run_json ["data"; "relationships"; "workspace"; "data"; "id"]
  = Value tfc_ws_id.

(** C6, amended: a run whose document holds the workspace id and a status
    that is neither planning nor applying is answered 400 whatever the
    identity mapping holds: the only calls made are the account and run
    details calls, no workspace is resolved and nothing is looked up or
    minted. *)
Theorem ineligible_run_rejected
    (Hplanning : run_status <> PStr "planning")
    (Happlying : run_status <> PStr "applying") :
  generate_token env = (run_calls, Return run_status_reply)
  /\ http_status run_status_reply = 400.
Proof.
  split; [|done].
  rewrite (generate_token_run_decoded _ _ _ Hrun_json Hrun_status Hrun_ws).
  destruct (py_in_tuple run_status expected_run_status) eqn:Hin; [|done].
  apply py_in_expected_run_status in Hin as [?|?]; done.
Qed.

(** *** The run is eligible and its workspace is resolved *)

Section Resolved.

Variables (ws_id : string) (ws_resp : Response).
Variables (ws_json tfc_org tfc_ws_name : pyval).
Hypothesis Heligible :
  run_status = PStr "planning" \/ run_status = PStr "applying".
Hypothesis Hws_id : tfc_ws_id = PStr ws_id.
Hypothesis Hws :
  requests_get env (WORKSPACE_BASE_URL +:+ ws_id) headers = Responded ws_resp.
Hypothesis Hws_ok : raise_for_status ws_resp = false.
Hypothesis Hws_json : json ws_resp = Some ws_json.
Hypothesis Hws_org :
  getpath ws_json ["data"; "relationships"; "organization"; "data"; "id"]
  = Value tfc_org.
Hypothesis Hws_name :
  getpath ws_json ["data"; "attributes"; "name"] = Value tfc_ws_name.

Local Abbreviation ws_slug :=
  (format env tfc_org +:+ "/" +:+ format env tfc_ws_name).
Local Abbreviation workspace_calls :=
  [EvGet ACCOUNT_URL headers;
   EvGet (RUNS_BASE_URL +:+ rid) headers;
   EvGet (WORKSPACE_BASE_URL +:+ ws_id) headers].

Lemma generate_token_resolved :
  generate_token env =
  run (after workspace_calls
         (present ← lift (py_contains mapping ws_slug);
          if negb present then return_ (no_identity_reply ws_slug) else
          access_token ← get_sa_token env mapping ws_slug;
          return_ (success_reply access_token))).
Proof.
  rewrite (generate_token_run_decoded _ _ _ Hrun_json Hrun_status Hrun_ws).
  apply py_in_expected_run_status in Heligible. rewrite Heligible, Hws_id.
  cbn [negb]. unfold workspace_and_mint.
  rewrite (bind_lift_value _ (WORKSPACE_BASE_URL +:+ ws_id)) by reflexivity.
  unfold http_get. rewrite Hws, bind_after, after_after, Hws_ok, Hws_json.
  rewrite (bind_lift_value _ tfc_org) by done.
  by rewrite (bind_lift_value _ tfc_ws_name).
Qed.

Lemma unmapped_workspace_reply (m : pydict) :
  mapping = PDict m ->
  m !! ws_slug = None ->
  generate_token env = (workspace_calls, Return (no_identity_reply ws_slug)).
Proof.
  intros Hdict Hslug. rewrite generate_token_resolved, Hdict.
  rewrite (bind_lift_value _ false); [done|].
  simpl. f_equal. apply bool_decide_eq_false. rewrite Hslug.
  by intros [? ?].
Qed.

(** C8: a workspace whose slug is not a key of the identity mapping is
    answered 404 with an error body, after the three platform calls and
    without a minting call; and so with an empty mapping no invocation, on
    any request and against any platform, is answered 200. *)
Theorem unmapped_workspace_not_found (m : pydict)
    (Hdict : mapping = PDict m) (Hslug : m !! ws_slug = None) :
  (generate_token env = (workspace_calls, Return (no_identity_reply ws_slug))
   /\ http_status (no_identity_reply ws_slug) = 404
   /\ body (no_identity_reply ws_slug) !! "status" = Some (PStr "error")
   /\ body (no_identity_reply ws_slug) !! "token" = Some PNone)
  /\ (forall env' t r,
        loads_SA_MAPPING env' = Some (PDict ∅) ->
        generate_token env' = (t, Return r) ->
        http_status r <> 200).
Proof.
  split; [|apply empty_mapping_never_200].
  split; [by apply (unmapped_workspace_reply m)|by vm_compute].
Qed.

(** C1: when the token is valid, the run eligible and the workspace slug a
    key of the identity mapping, the minting API is called once, for the
    service account the mapping gives for that slug (as the resource name
    [projects/-/serviceAccounts/<mapped value>]) with the cloud-platform
    scope, and the reply is 200 with the access token that call returned. *)
Theorem mapped_workspace_mints (m : pydict) (sa : pyval)
    (access_token : string)
    (Hdict : mapping = PDict m)
    (Hslug : m !! ws_slug = Some sa)
    (Hmint :
       generate_access_token env
         ("projects/-/serviceAccounts/" +:+ format env sa)
         GOOGLE_DEFAULT_AUTH_SCOPES = Some access_token) :
  generate_token env =
    ((workspace_calls ++
      [EvMint ("projects/-/serviceAccounts/" +:+ format env sa)
              ["https://www.googleapis.com/auth/cloud-platform"]])%list,
     Return (success_reply access_token))
  /\ http_status (success_reply access_token) = 200
  /\ body (success_reply access_token) !! "status" = Some (PStr "success")
  /\ body (success_reply access_token) !! "token" = Some (PStr access_token).
Proof.
  split; [|by vm_compute].
  rewrite generate_token_resolved, Hdict.
  rewrite (bind_lift_value _ true).
  2:{ simpl. f_equal. apply bool_decide_eq_true. by rewrite Hslug. }
  cbn [negb]. unfold get_sa_token.
  rewrite (bind_lift_value _ sa) by (simpl; by rewrite Hslug).
  unfold iam_generate_access_token. rewrite Hmint.
  reflexivity.
Qed.

End Resolved.

End RunDecoded.

End RunResponded.

End Validated.

End AccountResponded.

End Decoded.

(** ** The properties on the concrete deployment *)

(** The exchange of the deployment above, end to end. *)
Lemma mapped_workspace_mints_witness :
  generate_token scenario_env =
    ([EvGet ACCOUNT_URL "Bearer t1";
      EvGet (RUNS_BASE_URL +:+ "run-123") "Bearer t1";
      EvGet (WORKSPACE_BASE_URL +:+ "ws-1") "Bearer t1";
      EvMint "projects/-/serviceAccounts/sa1@proj.iam"
             ["https://www.googleapis.com/auth/cloud-platform"]],
     Return (success_reply "ya29.minted"))
  /\ http_status (success_reply "ya29.minted") = 200
  /\ body (success_reply "ya29.minted") !! "status" = Some (PStr "success")
  /\ body (success_reply "ya29.minted") !! "token"
     = Some (PStr "ya29.minted").
Proof.
  eapply (mapped_workspace_mints scenario_env scenario_mapping "t1" "run-123"
            eq_refl eq_refl
            (mkResponse 200 (Some (json_account (PBool true)))) eq_refl
            (json_account (PBool true)) (PBool true) eq_refl eq_refl eq_refl
            (mkResponse 200 (Some (json_run (PStr "planning") (PStr "ws-1"))))
            eq_refl eq_refl
            (json_run (PStr "planning") (PStr "ws-1"))
            (PStr "planning") (PStr "ws-1") eq_refl eq_refl eq_refl
            "ws-1"
            (mkResponse 200
               (Some (json_workspace (PStr "org-a") (PStr "prod"))))
            (json_workspace (PStr "org-a") (PStr "prod"))
            (PStr "org-a") (PStr "prod")
            (or_introl eq_refl) eq_refl eq_refl eq_refl eq_refl eq_refl eq_refl
            {[ "org-a/prod" := PStr "sa1@proj.iam" ]} (PStr "sa1@proj.iam")
            "ya29.minted" eq_refl eq_refl eq_refl).
Defined.

(** A request without a JSON body, on the deployment above. *)
Lemma missing_body_reply_has_no_token_witness :
  generate_token
    (scenario (Some scenario_mapping) PNone
       ConnectionFailed ConnectionFailed ConnectionFailed)
  = ([], Return missing_body_reply)
  /\ http_status missing_body_reply = 400
  /\ body missing_body_reply !! "status" = Some (PStr "error")
  /\ body missing_body_reply !! "message" =
       Some (PStr "invalid or missing JSON request body")
  /\ body missing_body_reply !! "token" = None.
Proof.
  apply (missing_body_reply_has_no_token _ scenario_mapping); reflexivity.
Defined.

(** C3 as stated fails: the platform answers the run details call with 404
    and its JSON error document.  That body decodes, so no 502; it has no
    [data], so the status check is never reached and no 400 is sent: the
    handler stops with a KeyError. *)
Lemma run_http_error_raises_KeyError :
  raise_for_status (mkResponse 404 (Some json_not_found)) = true
  /\ generate_token
       (scenario_with_run (Responded (mkResponse 404 (Some json_not_found))))
     = ([EvGet ACCOUNT_URL "Bearer t1";
         EvGet (RUNS_BASE_URL +:+ "run-123") "Bearer t1"],
        Raise (KeyError "data")).
Proof. split; vm_compute; reflexivity. Qed.

(** A run details call answered 500: without JSON the decoding stops the
    handler, with the document of a run that has errored the status check
    does, and with that of a run that is planning the workspace details
    call is made. *)
Lemma run_http_error_is_not_fatal_witness :
  (generate_token (scenario_with_run (Responded (mkResponse 500 None)))
   = ([EvGet ACCOUNT_URL "Bearer t1";
       EvGet (RUNS_BASE_URL +:+ "run-123") "Bearer t1"],
      Return BAD_GATEWAY)
   /\ http_status BAD_GATEWAY = 502)
  /\ (generate_token
        (scenario_with_run
           (Responded
              (mkResponse 500
                 (Some (json_run (PStr "errored") (PStr "ws-1"))))))
      = ([EvGet ACCOUNT_URL "Bearer t1";
          EvGet (RUNS_BASE_URL +:+ "run-123") "Bearer t1"],
         Return run_status_reply)
      /\ http_status run_status_reply = 400)
  /\ exists t o,
       generate_token
         (scenario_with_run
            (Responded
               (mkResponse 500
                  (Some (json_run (PStr "planning") (PStr "ws-1"))))))
       = (EvGet ACCOUNT_URL "Bearer t1"
            :: EvGet (RUNS_BASE_URL +:+ "run-123") "Bearer t1"
            :: EvGet (WORKSPACE_BASE_URL +:+ "ws-1") "Bearer t1" :: t,
          o).
Proof.
  split; [|split].
  - eapply (run_http_error_is_not_fatal
              (scenario_with_run (Responded (mkResponse 500 None)))
              scenario_mapping "t1" "run-123" eq_refl eq_refl
              (mkResponse 200 (Some (json_account (PBool true)))) eq_refl
              (json_account (PBool true)) (PBool true)
              eq_refl eq_refl eq_refl
              (mkResponse 500 None) eq_refl eq_refl eq_refl).
    reflexivity.
  - eapply (proj2 (run_http_error_is_not_fatal
              (scenario_with_run
                 (Responded
                    (mkResponse 500
                       (Some (json_run (PStr "errored") (PStr "ws-1"))))))
              scenario_mapping "t1" "run-123" eq_refl eq_refl
              (mkResponse 200 (Some (json_account (PBool true)))) eq_refl
              (json_account (PBool true)) (PBool true)
              eq_refl eq_refl eq_refl
              (mkResponse 500
                 (Some (json_run (PStr "errored") (PStr "ws-1"))))
              eq_refl eq_refl eq_refl)
              (json_run (PStr "errored") (PStr "ws-1"))
              (PStr "errored") (PStr "ws-1") eq_refl eq_refl eq_refl);
      discriminate.
  - eapply (proj2 (run_http_error_is_not_fatal
              (scenario_with_run
                 (Responded
                    (mkResponse 500
                       (Some (json_run (PStr "planning") (PStr "ws-1"))))))
              scenario_mapping "t1" "run-123" eq_refl eq_refl
              (mkResponse 200 (Some (json_account (PBool true)))) eq_refl
              (json_account (PBool true)) (PBool true)
              eq_refl eq_refl eq_refl
              (mkResponse 500
                 (Some (json_run (PStr "planning") (PStr "ws-1"))))
              eq_refl eq_refl eq_refl)
              (json_run (PStr "planning") (PStr "ws-1"))
              (PStr "planning") (PStr "ws-1") eq_refl eq_refl eq_refl).
    + left. reflexivity.
    + reflexivity.
Defined.

(** C4 as stated fails: an account document that is valid JSON but has no
    [is-service-account] field is not answered 502; the handler stops with
    a KeyError. *)
Lemma account_missing_field_raises_KeyError :
  generate_token
    (scenario_with_account
       (ok (PDict {[ "data" := PDict {[ "attributes" := PDict ∅ ]} ]})))
  = ([EvGet ACCOUNT_URL "Bearer t1"],
     Raise (KeyError "is-service-account")).
Proof. vm_compute. reflexivity. Qed.

(** An account details call answered 200 with a body that is not JSON. *)
Lemma account_body_not_json_witness :
  generate_token (scenario_with_account (Responded (mkResponse 200 None)))
  = ([EvGet ACCOUNT_URL "Bearer t1"], Return BAD_GATEWAY)
  /\ http_status BAD_GATEWAY = 502.
Proof.
  apply (account_body_not_json
           (scenario_with_account (Responded (mkResponse 200 None)))
           scenario_mapping "t1" "run-123" eq_refl eq_refl
           (mkResponse 200 None) eq_refl).
  - simpl. lia.
  - reflexivity.
Defined.

(** C5 as stated fails: when [requests.get] itself fails (no connection,
    a timeout), nothing catches the exception: no 502 is sent. *)
Lemma account_network_error_raises :
  generate_token (scenario_with_account ConnectionFailed)
  = ([EvGet ACCOUNT_URL "Bearer t1"], Raise RequestException).
Proof. vm_compute. reflexivity. Qed.

(** Nor is a status outside 400..599 a failure for the handler: the body of
    a 300 is decoded like that of a 200. *)
Example account_multiple_choices_is_decoded :
  raise_for_status (mkResponse 300 (Some (json_account (PBool false)))) = false
  /\ generate_token
       (scenario_with_account
          (Responded (mkResponse 300 (Some (json_account (PBool false))))))
     = ([EvGet ACCOUNT_URL "Bearer t1"], Return not_service_account_reply).
Proof. split; vm_compute; reflexivity. Qed.

(** An account details call answered 401. *)
Lemma account_http_error_witness :
  generate_token (scenario_with_account (Responded (mkResponse 401 None)))
  = ([EvGet ACCOUNT_URL "Bearer t1"], Return unauthorized_reply)
  /\ http_status unauthorized_reply = 401
  /\ body unauthorized_reply !! "token" = Some PNone.
Proof.
  eapply (proj1 (account_http_error
           (scenario_with_account (Responded (mkResponse 401 None)))
           scenario_mapping "t1" "run-123" eq_refl eq_refl
           (mkResponse 401 None) eq_refl eq_refl)).
  reflexivity.
Defined.

(** C6 as stated fails: the workspace id is read from the run document
    (line 150) before the status is checked (line 154), so a run that has
    errored and whose document has no [relationships] is not answered 400:
    the handler stops with a KeyError. *)
Lemma ineligible_run_without_workspace_raises :
  getpath (PDict {[ "data" := PDict {[ "attributes" :=
             PDict {[ "status" := PStr "errored" ]} ]} ]})
          ["data"; "attributes"; "status"]
  = Value (PStr "errored")
  /\ generate_token
       (scenario_with_run
          (ok (PDict {[ "data" := PDict {[ "attributes" :=
                 PDict {[ "status" := PStr "errored" ]} ]} ]})))
     = ([EvGet ACCOUNT_URL "Bearer t1";
         EvGet (RUNS_BASE_URL +:+ "run-123") "Bearer t1"],
        Raise (KeyError "relationships")).
Proof. split; vm_compute; reflexivity. Qed.

(** A run that has errored. *)
Lemma ineligible_run_rejected_witness :
  generate_token
    (scenario_with_run (ok (json_run (PStr "errored") (PStr "ws-1"))))
  = ([EvGet ACCOUNT_URL "Bearer t1";
      EvGet (RUNS_BASE_URL +:+ "run-123") "Bearer t1"],
     Return run_status_reply)
  /\ http_status run_status_reply = 400.
Proof.
  apply (ineligible_run_rejected
           (scenario_with_run (ok (json_run (PStr "errored") (PStr "ws-1"))))
           scenario_mapping "t1" "run-123" eq_refl eq_refl
           (mkResponse 200 (Some (json_account (PBool true)))) eq_refl
           (json_account (PBool true)) (PBool true) eq_refl eq_refl eq_refl
           (mkResponse 200 (Some (json_run (PStr "errored") (PStr "ws-1"))))
           eq_refl eq_refl
           (json_run (PStr "errored") (PStr "ws-1"))
           (PStr "errored") (PStr "ws-1") eq_refl eq_refl eq_refl);
    discriminate.
Defined.

(** The token of a human user. *)
Lemma human_token_rejected_witness :
  generate_token (scenario_with_account (ok (json_account (PBool false))))
  = ([EvGet ACCOUNT_URL "Bearer t1"], Return not_service_account_reply)
  /\ http_status not_service_account_reply = 400
  /\ body not_service_account_reply !! "msg" =
       Some (PStr "Token does not belong to a service account")
  /\ body not_service_account_reply !! "token" = Some PNone.
Proof.
  apply (human_token_rejected
           (scenario_with_account (ok (json_account (PBool false))))
           scenario_mapping "t1" "run-123" eq_refl eq_refl
           (mkResponse 200 (Some (json_account (PBool false)))) eq_refl
           (json_account (PBool false)) (PBool false)
           eq_refl eq_refl eq_refl eq_refl).
Defined.

(** The deployment with an empty identity mapping. *)
Lemma unmapped_workspace_not_found_witness :
  generate_token (scenario_with_mapping (Some (PDict ∅)))
  = ([EvGet ACCOUNT_URL "Bearer t1";
      EvGet (RUNS_BASE_URL +:+ "run-123") "Bearer t1";
      EvGet (WORKSPACE_BASE_URL +:+ "ws-1") "Bearer t1"],
     Return (no_identity_reply "org-a/prod"))
  /\ http_status (no_identity_reply "org-a/prod") = 404
  /\ body (no_identity_reply "org-a/prod") !! "status" = Some (PStr "error")
  /\ body (no_identity_reply "org-a/prod") !! "token" = Some PNone.
Proof.
  apply (proj1 (unmapped_workspace_not_found
            (scenario_with_mapping (Some (PDict ∅))) (PDict ∅)
            "t1" "run-123" eq_refl eq_refl
            (mkResponse 200 (Some (json_account (PBool true)))) eq_refl
            (json_account (PBool true)) (PBool true) eq_refl eq_refl eq_refl
            (mkResponse 200 (Some (json_run (PStr "planning") (PStr "ws-1"))))
            eq_refl eq_refl
            (json_run (PStr "planning") (PStr "ws-1"))
            (PStr "planning") (PStr "ws-1") eq_refl eq_refl eq_refl
            "ws-1"
            (mkResponse 200
               (Some (json_workspace (PStr "org-a") (PStr "prod"))))
            (json_workspace (PStr "org-a") (PStr "prod"))
            (PStr "org-a") (PStr "prod")
            (or_introl eq_refl) eq_refl eq_refl eq_refl eq_refl eq_refl eq_refl
            ∅ eq_refl (lookup_empty _))).
Defined.

(** The deployment with a SA_MAPPING_CONFIG that does not parse. *)
Lemma invalid_mapping_config_raises_witness :
  generate_token (scenario_with_mapping None)
  = ([], Raise (UnboundLocalError "parsed_mapping"))
  /\ forall r, (generate_token (scenario_with_mapping None)).2 <> Return r.
Proof.
  apply (invalid_mapping_config_raises (scenario_with_mapping None)).
  reflexivity.
Defined.

(** The string ["true"] is rejected and the integer 1 accepted. *)
Lemma service_account_check_witness :
  (generate_token (scenario_with_account (ok (json_account (PStr "true"))))
   = ([EvGet ACCOUNT_URL "Bearer t1"], Return not_service_account_reply)
   /\ http_status not_service_account_reply = 400)
  /\ exists t o,
       generate_token (scenario_with_account (ok (json_account (PInt 1))))
       = (EvGet ACCOUNT_URL "Bearer t1"
            :: EvGet (RUNS_BASE_URL +:+ "run-123") "Bearer t1" :: t, o).
Proof.
  split.
  - apply (proj1 (proj2 (service_account_check_is_equality_with_True
             (scenario_with_account (ok (json_account (PStr "true"))))
             scenario_mapping "t1" "run-123" eq_refl eq_refl
             (mkResponse 200 (Some (json_account (PStr "true")))) eq_refl
             (json_account (PStr "true")) (PStr "true")
             eq_refl eq_refl eq_refl))).
    reflexivity.
  - apply (proj1 (service_account_check_is_equality_with_True
             (scenario_with_account (ok (json_account (PInt 1))))
             scenario_mapping "t1" "run-123" eq_refl eq_refl
             (mkResponse 200 (Some (json_account (PInt 1)))) eq_refl
             (json_account (PInt 1)) (PInt 1)
             eq_refl eq_refl eq_refl)).
    reflexivity.
Defined.

(** * The paths through the handler *)

(** ** Following the statements *)

Lemma run_outcome_of (m : Py reply) : run m = (m.1, outcome_of m.2).
Proof. destruct m as [t [r | r | e]]; reflexivity. Qed.

Lemma ends_return (Q : list event -> completion reply -> Prop) (r : reply) :
  Q [] (Returned r) -> ends Q (return_ r).
Proof. intros HQ. exact HQ. Qed.

Lemma ends_bind {A B} (Q : list event -> completion B -> Prop)
    (m : Py A) (k : A -> Py B) :
  (forall a, m.2 = Normal a -> ends (fun t c => Q (m.1 ++ t)%list c) (k a)) ->
  (forall r, m.2 = Returned r -> Q m.1 (Returned r)) ->
  (forall e, m.2 = Thrown e -> Q m.1 (Thrown e)) ->
  ends Q (m ≫= k).
Proof.
  intros Hk Hr He. destruct m as [t [a | r | e]]; simpl in *.
  - specialize (Hk a eq_refl). unfold ends in *.
    unfold mbind, Py_bind, bind. destruct (k a) as [t' c]. exact Hk.
  - by apply Hr.
  - by apply He.
Qed.

Lemma ends_lift {A B} (Q : list event -> completion B -> Prop)
    (x : result A) (k : A -> Py B) :
  (forall a, x = Value a -> ends Q (k a)) ->
  (forall e, x = Raised e -> Q [] (Thrown e)) ->
  ends Q (lift x ≫= k).
Proof.
  intros Hk He. apply ends_bind; destruct x as [a|e]; simpl;
    try discriminate.
  - intros a' [= <-]. by apply Hk.
  - intros e' [= <-]. by apply He.
Qed.

Lemma ends_http_get {B} (Q : list event -> completion B -> Prop) (env : Env)
    (url authorization : string) (k : Response -> Py B) :
  (forall resp,
     requests_get env url authorization = Responded resp ->
     ends (fun t c => Q (EvGet url authorization :: t) c) (k resp)) ->
  (requests_get env url authorization = ConnectionFailed ->
   Q [EvGet url authorization] (Thrown RequestException)) ->
  ends Q (http_get env url authorization ≫= k).
Proof.
  intros Hk Hfail. apply ends_bind; unfold http_get; simpl;
    destruct (requests_get env url authorization) as [resp|];
    try discriminate.
  - intros a [= <-]. by apply Hk.
  - intros e [= <-]. by apply Hfail.
Qed.

Lemma ends_get_sa_token {B} (Q : list event -> completion B -> Prop)
    (env : Env) (mapping : pyval) (ws_slug : string) (k : string -> Py B) :
  (forall e, getitem mapping ws_slug = Raised e -> Q [] (Thrown e)) ->
  (forall sa,
     getitem mapping ws_slug = Value sa ->
     generate_access_token env
       ("projects/-/serviceAccounts/" +:+ format env sa)
       GOOGLE_DEFAULT_AUTH_SCOPES = None ->
     Q [mint_call env sa] (Thrown GoogleAPICallError)) ->
  (forall sa access_token,
     getitem mapping ws_slug = Value sa ->
     generate_access_token env
       ("projects/-/serviceAccounts/" +:+ format env sa)
       GOOGLE_DEFAULT_AUTH_SCOPES = Some access_token ->
     ends (fun t c => Q (mint_call env sa :: t) c) (k access_token)) ->
  ends Q (get_sa_token env mapping ws_slug ≫= k).
Proof.
  intros Hindex Hfail Hk. unfold get_sa_token, iam_generate_access_token.
  destruct (getitem mapping ws_slug) as [sa|e] eqn:Hsa.
  - rewrite (bind_lift_value _ sa) by done.
    destruct (generate_access_token env _ _) as [access_token|] eqn:Hmint.
    + rewrite bind_after. by apply (Hk sa access_token).
    + by apply (Hfail sa).
  - by apply Hindex.
Qed.

(** ** Every call of the handler takes one of the paths *)

Lemma workspace_and_mint_handled (env : Env) (mapping : pyval)
    (tok rid : string) (tfc_ws_id : pyval) :
  decoded env mapping tok rid ->
  validated env tok ->
  eligible env tok rid tfc_ws_id ->
  ends (fun t c =>
          handled env (account_call tok :: run_call tok rid :: t)
                      (outcome_of c))
       (workspace_and_mint env mapping ("Bearer " +:+ tok) tfc_ws_id).
Proof.
  intros Hdec Hval Helig. unfold workspace_and_mint.
  destruct (is_str tfc_ws_id) eqn:Hstr.
  2:{ apply ends_lift.
      - intros url Hurl. destruct tfc_ws_id; discriminate.
      - intros e He. destruct tfc_ws_id; try discriminate;
          injection He as <-; by eapply handled_workspace_id_type. }
  destruct tfc_ws_id as [| | | |ws_id| |]; try discriminate.
  apply ends_lift; [|discriminate]. intros url [= <-].
  apply ends_http_get; [|intros Hget; by eapply handled_workspace_failed].
  intros ws_resp Hget.
  destruct (raise_for_status ws_resp) eqn:Hraise.
  { apply ends_return. by eapply handled_workspace_http_error. }
  destruct (json ws_resp) as [ws_json|] eqn:Hjson.
  2:{ apply ends_return. by eapply handled_workspace_undecodable. }
  apply ends_lift;
    [|intros e He; by eapply handled_workspace_org_field].
  intros tfc_org Horg.
  apply ends_lift;
    [|intros e He; by eapply handled_workspace_name_field].
  intros tfc_ws_name Hname.
  assert (resolved env tok ws_id
            (format env tfc_org +:+ "/" +:+ format env tfc_ws_name))
    as Hres by (by exists ws_resp, ws_json, tfc_org, tfc_ws_name).
  apply ends_lift; [|intros e He; by eapply handled_mapping_type].
  intros present Hpresent. destruct present; cbn [negb].
  - apply ends_get_sa_token.
    + intros e He. by eapply handled_mapping_index.
    + intros sa Hsa Hmint. by eapply handled_mint_failed.
    + intros sa access_token Hsa Hmint. apply ends_return.
      by eapply handled_success.
  - apply ends_return. by eapply handled_no_identity.
Qed.

Lemma run_details_handled (env : Env) (mapping : pyval) (tok rid : string) :
  decoded env mapping tok rid ->
  validated env tok ->
  ends (fun t c => handled env (account_call tok :: t) (outcome_of c))
       (run_details env mapping ("Bearer " +:+ tok) (PStr rid)).
Proof.
  intros Hdec Hval. unfold run_details.
  apply ends_lift; [|discriminate]. intros url [= <-].
  apply ends_http_get; [|intros Hget; by eapply handled_run_failed].
  intros run_resp Hget. cbn zeta.
  destruct (json run_resp) as [run_json|] eqn:Hjson.
  2:{ apply ends_return. by eapply handled_run_undecodable. }
  apply ends_lift; [|intros e He; by eapply handled_run_status_field].
  intros run_status Hstatus.
  apply ends_lift; [|intros e He; by eapply handled_run_workspace_field].
  intros tfc_ws_id Hws.
  destruct (py_in_tuple run_status expected_run_status) eqn:Hin; cbn [negb].
  - apply workspace_and_mint_handled; [done..|].
    apply py_in_expected_run_status in Hin.
    by exists run_resp, run_json, run_status.
  - apply ends_return. by eapply handled_run_status.
Qed.

Lemma account_details_handled (env : Env) (mapping : pyval)
    (tok rid : string) :
  decoded env mapping tok rid ->
  ends (fun t c => handled env t (outcome_of c))
       (account_details env mapping (PStr tok) (PStr rid)).
Proof.
  intros Hdec. unfold account_details. cbn [format].
  apply ends_http_get; [|intros Hget; by eapply handled_account_failed].
  intros acct Hget.
  destruct (raise_for_status acct) eqn:Hraise.
  { pose proof (handled_account_http_error env _ _ _ _ Hdec Hget Hraise).
    destruct (status_code acct =? 401); by apply ends_return. }
  destruct (json acct) as [sess_json|] eqn:Hjson.
  2:{ apply ends_return. by eapply handled_account_undecodable. }
  apply ends_lift; [|intros e He; by eapply handled_account_field].
  intros is_sa Hflag.
  destruct (py_eq_True is_sa) eqn:Hsa; cbn [negb].
  - apply run_details_handled; [done|].
    by exists acct, sess_json, is_sa.
  - apply ends_return. by eapply handled_not_service_account.
Qed.

(** The handler always takes one of the paths. *)
Lemma generate_token_handled (env : Env) :
  handled env (generate_token env).1 (generate_token env).2.
Proof.
  destruct (loads_SA_MAPPING env) as [mapping|] eqn:Hloads.
  2:{ unfold generate_token. rewrite Hloads. by apply handled_unbound. }
  destruct (schema_accepts (get_json env)) eqn:Hschema.
  - destruct (schema_accepts_inv _ Hschema) as (tok & rid & Hreq).
    rewrite (generate_token_decoded env mapping tok rid Hloads Hreq).
    rewrite run_outcome_of.
    by apply (account_details_handled env mapping tok rid).
  - unfold generate_token. rewrite Hloads.
    rewrite (bind_lift_value _ mapping) by done.
    destruct (get_json env) eqn:Hreq;
      first [ by eapply handled_missing_body
            | rewrite Hschema, <- Hreq; cbn [negb];
              eapply handled_schema_error;
              [done | by rewrite Hreq | by rewrite Hreq] ].
Qed.

(** ** Each path gives the result of the handler *)

Ltac path_facts :=
  repeat match goal with
  | H : decoded _ _ _ _ |- _ => destruct H as [? ?]
  | H : validated _ _ |- _ => destruct H as (? & ? & ? & ? & ? & ? & ? & ?)
  | H : eligible _ _ _ _ |- _ =>
      destruct H as (? & ? & ? & ? & ? & ? & ? & ?%py_in_expected_run_status)
  | H : resolved _ _ _ _ |- _ =>
      destruct H as (? & ? & ? & ? & ? & ? & ? & ? & ? & ->)
  end.

Ltac path_step :=
  first
    [ match goal with
      | H : ?l = _ |- context [?l] => rewrite H
      end
    | progress cbn [mbind Py_bind bind lift pure return_ raise run negb
                    fst snd app str_add format] ].

Lemma handled_sound (env : Env) (t : list event) (o : outcome) :
  handled env t o -> generate_token env = (t, o).
Proof.
  intros [];
    try (path_facts;
         erewrite generate_token_decoded by eassumption;
         unfold account_details, run_details, workspace_and_mint,
           get_sa_token, http_get, iam_generate_access_token,
           account_call, run_call, workspace_call, mint_call;
         repeat path_step;
         try match goal with
             | |- context [status_code ?r =? 401] =>
                 destruct (status_code r =? 401)
             end;
         try match goal with
             | H : is_str ?v = false |- _ => destruct v; try discriminate
             end;
         repeat path_step; reflexivity).
  - unfold generate_token. by repeat path_step.
  - unfold generate_token. by repeat path_step.
  - unfold generate_token. repeat path_step.
    destruct (get_json env); done.
Qed.

(** The paths are exactly the results of the handler. *)
Lemma handled_iff (env : Env) (t : list event) (o : outcome) :
  handled env t o <-> generate_token env = (t, o).
Proof.
  split; [apply handled_sound|].
  intros Hrun. pose proof (generate_token_handled env) as H.
  by rewrite Hrun in H.
Qed.

(** * Further properties of the handler *)

(** ** The request decoder *)

(** X1: the schema (lines 44-47) accepts exactly the objects that hold the
    two keys [TFC_TOKEN] and [RUN_ID], each with a string, and nothing
    else. *)
Theorem request_schema_accepts_exactly (v : pyval) :
  schema_accepts v = true <->
  exists tok rid,
    v = PDict {[ "TFC_TOKEN" := PStr tok; "RUN_ID" := PStr rid ]}.
Proof.
  split; [apply schema_accepts_inv|].
  intros (tok & rid & ->). apply schema_accepts_request.
Qed.


Lemma list_ascii_of_append (a b : string) :
  list_ascii_of_string (a +:+ b)
  = (list_ascii_of_string a ++ list_ascii_of_string b)%list.
Proof. induction a as [|c a IH]; simpl; [done|by rewrite IH]. Qed.

Lemma join_lines_no_newline (s : string) :
  ~ List.In newline (list_ascii_of_string (join_lines s)).
Proof.
  induction s as [|c s IH]; simpl; [tauto|].
  destruct (Ascii.eqb c (Ascii.ascii_of_nat 10)) eqn:Hc; simpl.
  - intros [H|[H|H]]; [discriminate..|done].
  - intros [H|H]; [|done]. apply Ascii.eqb_neq in Hc. by destruct Hc.
Qed.

Lemma join_lines_one_line (s : string) :
  ~ List.In newline (list_ascii_of_string s) -> join_lines s = s.
Proof.
  induction s as [|c s IH]; simpl; [done|]. intros Hin.
  destruct (Ascii.eqb c (Ascii.ascii_of_nat 10)) eqn:Hc.
  - apply Ascii.eqb_eq in Hc. destruct Hin. by left.
  - rewrite IH; [done|]. intros H. apply Hin. by right.
Qed.

Lemma join_lines_append (a b : string) :
  join_lines (a +:+ b) = join_lines a +:+ join_lines b.
Proof.
  induction a as [|c a IH]; simpl; [done|].
  destruct (Ascii.eqb c (Ascii.ascii_of_nat 10)); simpl; by rewrite IH.
Qed.

(** X3: the text of the validation error is put on one line (line 87):
    every newline becomes ["; "], a text without newline is kept as it is,
    and so the message of the schema reply never holds a newline. *)
Theorem schema_error_message_is_one_line :
  (forall a b,
     join_lines (a +:+ String newline b)
     = join_lines a +:+ "; " +:+ join_lines b)
  /\ (forall s,
        ~ List.In newline (list_ascii_of_string s) -> join_lines s = s)
  /\ (forall env v,
        exists msg,
          body (schema_error_reply env v) !! "message" = Some (PStr msg)
          /\ ~ List.In newline (list_ascii_of_string msg)).
Proof.
  split; [|split].
  - intros a b. by rewrite join_lines_append.
  - apply join_lines_one_line.
  - intros env v.
    exists ("Invalid JSON schema in request body from client"
            +:+ ": " +:+ join_lines (humanized_error env v)).
    split; [by vm_compute|].
    rewrite !list_ascii_of_append, !in_app_iff.
    intros [H|[H|H]].
    + vm_compute in H. intuition discriminate.
    + vm_compute in H. intuition discriminate.
    + by apply join_lines_no_newline in H.
Qed.

(** ** The replies *)


(** X5: the handler answers with one of five status codes, 200 with the
    success marker and 400, 401, 404 or 502 with the error marker. *)
Theorem reply_status_codes (env : Env) (t : list event) (r : reply) :
  generate_token env = (t, Return r) ->
  (http_status r = 200 /\ body r !! "status" = Some (PStr "success"))
  \/ ((http_status r = 400 \/ http_status r = 401 \/ http_status r = 404
       \/ http_status r = 502)
      /\ body r !! "status" = Some (PStr "error")).
Proof.
  intros Hrun%generate_token_possible_reply.
  destruct Hrun; first [ left; by vm_compute | right; split; [|by vm_compute] ];
    vm_compute; tauto.
Qed.

(** ** Python operations *)

Lemma getitem_raised (v : pyval) (k : string) (e : exn) :
  getitem v k = Raised e -> e = TypeError \/ e = KeyError k.
Proof.
  destruct v as [| | | | | |d]; simpl; try (intros [= <-]; by left).
  destruct (d !! k); [discriminate|]. intros [= <-]. by right.
Qed.

Lemma getpath_raised (ks : list string) (v : pyval) (e : exn) :
  getpath v ks = Raised e ->
  e = TypeError \/ exists k, e = KeyError k /\ List.In k ks.
Proof.
  revert v. induction ks as [|k ks IH]; intros v; simpl; [discriminate|].
  destruct (getitem v k) as [x|e'] eqn:Hitem.
  - intros [?|(k' & ? & ?)]%IH; [by left|right]. exists k'. auto.
  - intros [= <-]. apply getitem_raised in Hitem as [->| ->]; [by left|].
    right. exists k. auto.
Qed.

Lemma py_contains_raised (v : pyval) (slug : string) (e : exn) :
  py_contains v slug = Raised e -> e = TypeError.
Proof. destruct v; simpl; congruence. Qed.

Lemma getitem_value_dict (v x : pyval) (k : string) :
  getitem v k = Value x -> exists d, v = PDict d /\ d !! k = Some x.
Proof.
  destruct v as [| | | | | |d]; simpl; try discriminate.
  destruct (d !! k) eqn:Hk; [|discriminate]. intros [= <-]. eauto.
Qed.

Lemma getitem_contains (v x : pyval) (k : string) :
  getitem v k = Value x -> py_contains v k = Value true.
Proof.
  intros (d & -> & Hk)%getitem_value_dict. simpl. f_equal.
  apply bool_decide_eq_true. by rewrite Hk.
Qed.

(** [in] guards the index: a found slug is never a KeyError. *)
Lemma contains_index_not_KeyError (v : pyval) (k k' : string) :
  py_contains v k = Value true -> getitem v k <> Raised (KeyError k').
Proof.
  destruct v as [| | | | | |d]; simpl; try discriminate.
  intros [= Hin%bool_decide_eq_true]. destruct Hin as [x ->]. discriminate.
Qed.

(** ** The stages that the handler guards with 502 and with exceptions *)

(** X6: once the run is eligible, a workspace details call that answers
    with an HTTP error status, or with a body that is not JSON, ends the
    exchange with 502 (unlike the run details call, whose HTTP error is
    only logged); nothing is looked up or minted. *)
Theorem workspace_failure_bad_gateway (env : Env) (mapping : pyval)
    (tok rid ws_id : string) (ws_resp : Response) :
  decoded env mapping tok rid ->
  validated env tok ->
  eligible env tok rid (PStr ws_id) ->
  requests_get env (WORKSPACE_BASE_URL +:+ ws_id) ("Bearer " +:+ tok)
  = Responded ws_resp ->
  raise_for_status ws_resp = true \/ json ws_resp = None ->
  generate_token env =
    ([account_call tok; run_call tok rid; workspace_call tok ws_id],
     Return BAD_GATEWAY)
  /\ http_status BAD_GATEWAY = 502.
Proof.
  intros Hdec Hval Helig Hget Hfail. split; [|done].
  apply handled_sound.
  destruct (raise_for_status ws_resp) eqn:Hraise.
  - by eapply handled_workspace_http_error.
  - destruct Hfail as [?|Hjson]; [done|].
    by eapply handled_workspace_undecodable.
Qed.

(** X7: a run document whose workspace id is not a string (a number, say)
    stops the handler with a TypeError when the workspace URL is built,
    before the workspace call. *)
Theorem workspace_id_not_a_string (env : Env) (mapping : pyval)
    (tok rid : string) (tfc_ws_id : pyval) :
  decoded env mapping tok rid ->
  validated env tok ->
  eligible env tok rid tfc_ws_id ->
  (forall ws_id, tfc_ws_id <> PStr ws_id) ->
  generate_token env =
    ([account_call tok; run_call tok rid], Raise TypeError).
Proof.
  intros Hdec Hval Helig Hstr. apply handled_sound.
  eapply handled_workspace_id_type; [done..|].
  destruct tfc_ws_id as [| | | |ws_id| |]; try done. by destruct (Hstr ws_id).
Qed.

(** X8: when the minting call fails the exception leaves the handler: no
    reply is returned and the call is not tried again. *)
Theorem minting_failure_is_raised (env : Env) (mapping sa : pyval)
    (tok rid ws_id ws_slug : string) :
  decoded env mapping tok rid ->
  validated env tok ->
  eligible env tok rid (PStr ws_id) ->
  resolved env tok ws_id ws_slug ->
  getitem mapping ws_slug = Value sa ->
  generate_access_token env
    ("projects/-/serviceAccounts/" +:+ format env sa)
    GOOGLE_DEFAULT_AUTH_SCOPES = None ->
  generate_token env =
    ([account_call tok; run_call tok rid; workspace_call tok ws_id;
      mint_call env sa],
     Raise GoogleAPICallError).
Proof.
  intros Hdec Hval Helig Hres Hsa Hmint. apply handled_sound.
  eapply handled_mint_failed; eauto using getitem_contains.
Qed.

(** ** What a reply or a call tells about the exchange *)

(** X9: a 200 is only ever sent for a complete exchange: the body was
    accepted, the token validated as a service account's, the run eligible,
    the workspace resolved to a slug that the mapping holds, and the token
    of the reply is the one the minting call returned for the mapped
    service account. *)
Theorem success_only_after_validation (env : Env) (t : list event)
    (r : reply) :
  generate_token env = (t, Return r) ->
  http_status r = 200 ->
  exists mapping tok rid ws_id ws_slug sa access_token,
    decoded env mapping tok rid
    /\ validated env tok
    /\ eligible env tok rid (PStr ws_id)
    /\ resolved env tok ws_id ws_slug
    /\ getitem mapping ws_slug = Value sa
    /\ generate_access_token env
         ("projects/-/serviceAccounts/" +:+ format env sa)
         GOOGLE_DEFAULT_AUTH_SCOPES = Some access_token
    /\ t = [account_call tok; run_call tok rid; workspace_call tok ws_id;
            mint_call env sa]
    /\ r = success_reply access_token.
Proof.
  intros Hrun%handled_iff Hstatus.
  inversion Hrun; subst; try discriminate.
  - destruct (status_code acct =? 401); discriminate.
  - eauto 15.
Qed.

(** X10: the minting API is only ever called for a complete exchange, and
    then for the service account that the mapping gives for the resolved
    slug, with the cloud-platform scope. *)
Theorem mint_only_after_validation (env : Env) (name : string)
    (scope : list string) :
  EvMint name scope ∈ (generate_token env).1 ->
  exists mapping tok rid ws_id ws_slug sa,
    decoded env mapping tok rid
    /\ validated env tok
    /\ eligible env tok rid (PStr ws_id)
    /\ resolved env tok ws_id ws_slug
    /\ getitem mapping ws_slug = Value sa
    /\ name = "projects/-/serviceAccounts/" +:+ format env sa
    /\ scope = ["https://www.googleapis.com/auth/cloud-platform"].
Proof.
  intros Hin. destruct (generate_token_handled env);
    repeat (apply elem_of_cons in Hin as [Hin|Hin]; [try discriminate|]);
    try (by apply elem_of_nil in Hin);
    injection Hin as -> ->; eauto 15.
Qed.

(** X11: the calls are always made in the same order, each at most once,
    and each only when the stage before it has passed: the account call
    for an accepted body, the run call for a validated token, the workspace
    call for an eligible run, the minting call for a mapped workspace.  All
    three platform calls carry the token of the request as bearer. *)
Theorem calls_in_order (env : Env) (t : list event) (o : outcome) :
  generate_token env = (t, o) ->
  t = []
  \/ exists mapping tok rid,
       decoded env mapping tok rid
       /\ (t = [account_call tok]
           \/ validated env tok
              /\ (t = [account_call tok; run_call tok rid]
                  \/ exists ws_id,
                       eligible env tok rid (PStr ws_id)
                       /\ (t = [account_call tok; run_call tok rid;
                                workspace_call tok ws_id]
                           \/ exists ws_slug sa,
                                resolved env tok ws_id ws_slug
                                /\ getitem mapping ws_slug = Value sa
                                /\ t = [account_call tok; run_call tok rid;
                                        workspace_call tok ws_id;
                                        mint_call env sa]))).
Proof.
  intros Hrun%handled_iff.
  destruct Hrun; first [ by left | right; exists mapping, tok, rid ];
    (split; [done|]); first [ by left | right ];
    (split; [done|]); first [ by left | right ];
    exists ws_id; (split; [done|]); first [ by left | right ];
    exists ws_slug, sa; done.
Qed.

(** X12: an UnboundLocalError leaves the handler only when [json.loads]
    raised the JSONDecodeError that lines 68-69 catch and log: it is then
    raised for [parsed_mapping], before any call.  No other path reads a
    variable that was not assigned. *)
Theorem unbound_local_only_for_invalid_config (env : Env) (t : list event)
    (name : string) :
  generate_token env = (t, Raise (UnboundLocalError name)) ->
  loads_SA_MAPPING env = None /\ t = [] /\ name = "parsed_mapping".
Proof.
  intros Hrun%handled_iff.
  inversion Hrun; subst; try done;
    repeat match goal with
    | H : getpath _ _ = Raised _ |- _ =>
        apply getpath_raised in H as [?|(? & ? & _)]; discriminate
    | H : py_contains _ _ = Raised _ |- _ =>
        apply py_contains_raised in H; discriminate
    | H : getitem _ _ = Raised _ |- _ =>
        apply getitem_raised in H as [?|?]; discriminate
    end.
Qed.

(** X13: a SA_MAPPING_CONFIG that is valid JSON but not an object (an
    array, a string, a number, null) never yields a token: the minting API
    is not called and no reply is a 200. *)
Theorem non_object_mapping_never_mints (env : Env) (mapping : pyval) :
  loads_SA_MAPPING env = Some mapping ->
  (forall d, mapping <> PDict d) ->
  (forall name scope, EvMint name scope ∉ (generate_token env).1)
  /\ (forall r, (generate_token env).2 = Return r -> http_status r <> 200).
Proof.
  intros Hloads Hobject.
  assert (forall mapping' tok rid ws_slug sa,
            decoded env mapping' tok rid ->
            getitem mapping' ws_slug = Value sa -> False) as Hno.
  { intros mapping' tok rid ws_slug sa [Hloads' _] Hsa.
    apply getitem_value_dict in Hsa as (d & -> & _).
    rewrite Hloads in Hloads'. injection Hloads' as ->.
    by destruct (Hobject d). }
  pose proof (generate_token_handled env) as Hrun.
  destruct Hrun; try (by destruct (Hno _ _ _ _ _ ltac:(eassumption)
                                            ltac:(eassumption)));
    (split;
     [ intros name scope Hmint;
       repeat (apply elem_of_cons in Hmint as [Hmint|Hmint];
               [discriminate|]);
       by apply elem_of_nil in Hmint
     | intros r [= <-]; try discriminate;
       try (destruct (status_code acct =? 401); discriminate) ]).
Qed.

(** X14: a 401 is only sent when the platform answered the account details
    call with 401; it is the only call made. *)
Theorem unauthorized_only_from_platform (env : Env) (t : list event)
    (r : reply) :
  generate_token env = (t, Return r) ->
  http_status r = 401 ->
  exists mapping tok rid acct,
    decoded env mapping tok rid
    /\ requests_get env ACCOUNT_URL ("Bearer " +:+ tok) = Responded acct
    /\ status_code acct = 401
    /\ t = [account_call tok]
    /\ r = unauthorized_reply.
Proof.
  intros Hrun%handled_iff Hstatus.
  inversion Hrun; subst; try discriminate.
  destruct (status_code acct =? 401) eqn:Hcode; [|discriminate].
  apply Z.eqb_eq in Hcode. eauto 10.
Qed.

(** X15: a 404 is only sent at the end of a validated exchange, for a
    resolved slug that the mapping does not hold: a caller without a valid
    service account token and an eligible run learns nothing about the
    mapping. *)
Theorem not_found_only_after_validation (env : Env) (t : list event)
    (r : reply) :
  generate_token env = (t, Return r) ->
  http_status r = 404 ->
  exists mapping tok rid ws_id ws_slug,
    decoded env mapping tok rid
    /\ validated env tok
    /\ eligible env tok rid (PStr ws_id)
    /\ resolved env tok ws_id ws_slug
    /\ py_contains mapping ws_slug = Value false
    /\ t = [account_call tok; run_call tok rid; workspace_call tok ws_id]
    /\ r = no_identity_reply ws_slug.
Proof.
  intros Hrun%handled_iff Hstatus.
  inversion Hrun; subst; try discriminate.
  - destruct (status_code acct =? 401); discriminate.
  - eauto 12.
Qed.

(** X16: a KeyError that leaves the handler names a field that a platform
    document lacks.  The fields of the request are checked by the schema
    and the mapping is indexed only after the [in] test, so neither
    [TFC_TOKEN], [RUN_ID] nor a workspace slug is ever the missing key. *)
Theorem key_errors_name_document_fields (env : Env) (t : list event)
    (k : string) :
  generate_token env = (t, Raise (KeyError k)) ->
  List.In k ["data"; "attributes"; "is-service-account"; "status";
             "relationships"; "workspace"; "id"; "organization"; "name"]
  /\ forall name scope, EvMint name scope ∉ t.
Proof.
  intros Hrun%handled_iff.
  inversion Hrun; subst;
    try match goal with
        | H : py_contains _ _ = Raised _ |- _ =>
            apply py_contains_raised in H; discriminate
        | H : py_contains ?m ?s = Value true,
          H' : getitem ?m ?s = Raised (KeyError _) |- _ =>
            by destruct (contains_index_not_KeyError _ _ _ H H')
        end;
    match goal with
    | H : getpath _ _ = Raised _ |- _ =>
        apply getpath_raised in H as [?|(k' & [= <-] & Hin)];
          [discriminate|]
    end;
    (split;
     [ simpl in Hin; simpl; tauto
     | intros name scope Hmint;
       repeat (apply elem_of_cons in Hmint as [Hmint|Hmint];
               [discriminate|]);
       by apply elem_of_nil in Hmint ]).
Qed.

(** ** What the result does not depend on *)

Lemma request_inj (tok rid tok' rid' : string) :
  PDict {[ "TFC_TOKEN" := PStr tok; "RUN_ID" := PStr rid ]}
  = PDict {[ "TFC_TOKEN" := PStr tok'; "RUN_ID" := PStr rid' ]} ->
  tok = tok' /\ rid = rid'.
Proof.
  intros H. split.
  - apply (f_equal (fun v => getitem v "TFC_TOKEN")) in H.
    vm_compute in H. congruence.
  - apply (f_equal (fun v => getitem v "RUN_ID")) in H.
    vm_compute in H. congruence.
Qed.

Lemma account_url_is_no_run_url (rid : string) :
  ACCOUNT_URL <> RUNS_BASE_URL +:+ rid.
Proof. unfold ACCOUNT_URL, RUNS_BASE_URL. simpl. discriminate. Qed.

Lemma workspace_url_is_no_run_url (ws_id rid : string) :
  WORKSPACE_BASE_URL +:+ ws_id <> RUNS_BASE_URL +:+ rid.
Proof. unfold WORKSPACE_BASE_URL, RUNS_BASE_URL. simpl. discriminate. Qed.

Section RunStatusCode.

Variables (env : Env) (rid : string) (s : Z).

Local Abbreviation env' := (with_status_at env (RUNS_BASE_URL +:+ rid) s).

Lemma get_account_with_status (h : string) :
  requests_get env' ACCOUNT_URL h = requests_get env ACCOUNT_URL h.
Proof.
  unfold with_status_at. cbn [requests_get].
  rewrite bool_decide_eq_false_2; [done|].
  apply account_url_is_no_run_url.
Qed.

Lemma get_workspace_with_status (ws_id h : string) :
  requests_get env' (WORKSPACE_BASE_URL +:+ ws_id) h
  = requests_get env (WORKSPACE_BASE_URL +:+ ws_id) h.
Proof.
  unfold with_status_at. cbn [requests_get].
  rewrite bool_decide_eq_false_2; [done|].
  apply workspace_url_is_no_run_url.
Qed.

Lemma get_run_with_status (h : string) :
  requests_get env' (RUNS_BASE_URL +:+ rid) h
  = set_status s (requests_get env (RUNS_BASE_URL +:+ rid) h).
Proof.
  unfold with_status_at. cbn [requests_get].
  by rewrite bool_decide_eq_true_2.
Qed.

Lemma decoded_with_status (mapping : pyval) (tok rid' : string) :
  decoded env mapping tok rid' -> decoded env' mapping tok rid'.
Proof. intros H. exact H. Qed.

Lemma validated_with_status (tok : string) :
  validated env tok -> validated env' tok.
Proof.
  intros (acct & sess_json & is_sa & Hget & H).
  exists acct, sess_json, is_sa. by rewrite get_account_with_status.
Qed.

Lemma eligible_with_status (tok : string) (tfc_ws_id : pyval) :
  eligible env tok rid tfc_ws_id -> eligible env' tok rid tfc_ws_id.
Proof.
  intros (run_resp & run_json & run_status & Hget & H).
  exists (mkResponse s (json run_resp)), run_json, run_status.
  by rewrite get_run_with_status, Hget.
Qed.

Lemma resolved_with_status (tok ws_id ws_slug : string) :
  resolved env tok ws_id ws_slug -> resolved env' tok ws_id ws_slug.
Proof.
  intros (ws_resp & ws_json & tfc_org & tfc_ws_name & Hget & H).
  exists ws_resp, ws_json, tfc_org, tfc_ws_name.
  by rewrite get_workspace_with_status.
Qed.

Ltac premise :=
  first
    [ eassumption
    | by apply decoded_with_status
    | by apply validated_with_status
    | by apply eligible_with_status
    | by apply resolved_with_status
    | rewrite get_account_with_status; eassumption
    | rewrite get_workspace_with_status; eassumption
    | match goal with
      | H : requests_get env (RUNS_BASE_URL +:+ rid) _ = _ |- _ =>
          rewrite get_run_with_status, H; reflexivity
      end ].

(** X17: the status code with which the platform answers the run details
    call has no influence at all: with any other code, and the same body,
    the handler makes the same calls and ends in the same way. *)
Theorem run_status_code_is_ignored (tok : string) :
  get_json env = PDict {[ "TFC_TOKEN" := PStr tok; "RUN_ID" := PStr rid ]} ->
  generate_token (with_status_at env (RUNS_BASE_URL +:+ rid) s)
  = generate_token env.
Proof.
  intros Hreq. pose proof (generate_token_handled env) as Hrun.
  destruct (generate_token env) as [t o]. simpl in Hrun.
  apply handled_sound.
  destruct Hrun;
    try match goal with
        | H : decoded env _ _ _ |- _ =>
            let H' := fresh in
            pose proof H as [_ H']; rewrite Hreq in H';
            apply request_inj in H' as [<- <-]
        end.
  all: first
    [ by apply handled_unbound
    | by eapply handled_missing_body
    | change (schema_error_reply env (get_json env))
        with (schema_error_reply env' (get_json env'));
      by eapply handled_schema_error
    | eapply handled_account_failed; premise
    | eapply handled_account_http_error; premise
    | eapply handled_account_undecodable; premise
    | eapply handled_account_field; premise
    | eapply handled_not_service_account; premise
    | eapply handled_run_failed; premise
    | eapply handled_run_undecodable; premise
    | eapply handled_run_status_field; premise
    | eapply handled_run_workspace_field; premise
    | eapply handled_run_status; premise
    | eapply handled_workspace_id_type; premise
    | eapply handled_workspace_failed; premise
    | eapply handled_workspace_http_error; premise
    | eapply handled_workspace_undecodable; premise
    | eapply handled_workspace_org_field; premise
    | eapply handled_workspace_name_field; premise
    | eapply handled_mapping_type; premise
    | eapply handled_no_identity; premise
    | eapply handled_mapping_index; premise
    | match goal with
      | |- context [mint_call env ?sa] =>
          change (mint_call env sa) with (mint_call env' sa)
      end;
      first [ eapply handled_mint_failed; premise
            | eapply handled_success; premise ] ].
Qed.

End RunStatusCode.

Section MappingContent.

Variables (env : Env) (mapping' : pyval).

Local Abbreviation env' := (with_mapping env mapping').

Lemma decoded_with_mapping (mapping : pyval) (tok rid : string) :
  decoded env mapping tok rid -> decoded env' mapping' tok rid.
Proof. intros [_ Hreq]. by split. Qed.

Ltac premise :=
  first
    [ by eapply decoded_with_mapping
    | eassumption
    | match goal with
      | H : validated env ?tok |- validated _ ?tok => exact H
      | H : eligible env ?tok ?rid ?ws |- eligible _ ?tok ?rid ?ws => exact H
      end ].

(** X18: the content of the identity mapping is read only at the end of a
    validated exchange.  With any other mapping the handler makes the same
    calls and ends in the same way, unless the token was validated, the
    run eligible and the workspace resolved to a slug. *)
Theorem mapping_only_read_after_resolution (mapping : pyval) :
  loads_SA_MAPPING env = Some mapping ->
  generate_token (with_mapping env mapping') = generate_token env
  \/ exists tok rid ws_id ws_slug,
       decoded env mapping tok rid
       /\ validated env tok
       /\ eligible env tok rid (PStr ws_id)
       /\ resolved env tok ws_id ws_slug.
Proof.
  intros Hloads. pose proof (generate_token_handled env) as Hrun.
  destruct (generate_token env) as [t o]. simpl in Hrun.
  destruct Hrun;
    try match goal with
        | H : decoded env _ _ _ |- _ =>
            let H' := fresh in
            pose proof H as [H' _]; rewrite Hloads in H';
            injection H' as <-
        end;
    try (right; by eauto 10).
  all: left; apply handled_sound.
  all: first
    [ congruence
    | by eapply handled_missing_body
    | change (schema_error_reply env (get_json env))
        with (schema_error_reply env' (get_json env'));
      by eapply handled_schema_error
    | eapply handled_account_failed; premise
    | eapply handled_account_http_error; premise
    | eapply handled_account_undecodable; premise
    | eapply handled_account_field; premise
    | eapply handled_not_service_account; premise
    | eapply handled_run_failed; premise
    | eapply handled_run_undecodable; premise
    | eapply handled_run_status_field; premise
    | eapply handled_run_workspace_field; premise
    | eapply handled_run_status; premise
    | eapply handled_workspace_id_type; premise
    | eapply handled_workspace_failed; premise
    | eapply handled_workspace_http_error; premise
    | eapply handled_workspace_undecodable; premise
    | eapply handled_workspace_org_field; premise
    | eapply handled_workspace_name_field; premise ].
Qed.

End MappingContent.

(** ** What an error tells *)

Ltac last_call :=
  match goal with
  | |- exists url authorization t', [?e] = _ /\ _ =>
      eexists _, _, []; split; [reflexivity|]
  | |- exists url authorization t', [?a; ?e] = _ /\ _ =>
      eexists _, _, [a]; split; [reflexivity|]
  | |- exists url authorization t', [?a; ?b; ?e] = _ /\ _ =>
      eexists _, _, [a; b]; split; [reflexivity|]
  end.

(** X19: a RequestException leaves the handler only when [requests.get]
    itself failed, and the failed call is the last one made. *)
Theorem request_exception_only_from_failed_call (env : Env)
    (t : list event) :
  generate_token env = (t, Raise RequestException) ->
  exists url authorization t',
    t = (t' ++ [EvGet url authorization])%list
    /\ requests_get env url authorization = ConnectionFailed.
Proof.
  intros Hrun%handled_iff.
  inversion Hrun; subst;
    try match goal with
        | H : getpath _ _ = Raised _ |- _ =>
            apply getpath_raised in H as [?|(? & ? & _)]; discriminate
        | H : py_contains _ _ = Raised _ |- _ =>
            apply py_contains_raised in H; discriminate
        | H : getitem _ _ = Raised _ |- _ =>
            apply getitem_raised in H as [?|?]; discriminate
        end;
    unfold account_call, run_call, workspace_call; last_call; done.
Qed.

(** X20: a 502 is the constant Bad Gateway reply, and it is only sent
    when the last call made was answered by the platform with an HTTP
    error status or with a body that is not JSON. *)
Theorem bad_gateway_only_from_platform (env : Env) (t : list event)
    (r : reply) :
  generate_token env = (t, Return r) ->
  http_status r = 502 ->
  r = BAD_GATEWAY
  /\ exists url authorization t',
       t = (t' ++ [EvGet url authorization])%list
       /\ exists resp,
            requests_get env url authorization = Responded resp
            /\ (raise_for_status resp = true \/ json resp = None).
Proof.
  intros Hrun%handled_iff Hstatus.
  inversion Hrun; subst; try discriminate;
    try match goal with
        | H : context [status_code ?a =? 401] |- _ =>
            destruct (status_code a =? 401); [discriminate|]
        end;
    (split; [done|]);
    unfold account_call, run_call, workspace_call; last_call; eauto.
Qed.

(** X21: a 400 has one of three causes.  The body was missing or refused
    by the schema, and no call was made; or the account details call
    answered without HTTP error with a document whose [is-service-account]
    is not equal to [True], and it is the only call made; or the token was
    validated and the run document gives a status that is neither planning
    nor applying, after the account and run calls. *)
Theorem bad_request_causes (env : Env) (t : list event) (r : reply) :
  generate_token env = (t, Return r) ->
  http_status r = 400 ->
  (t = []
   /\ (get_json env = PNone /\ r = missing_body_reply
       \/ get_json env <> PNone
          /\ schema_accepts (get_json env) = false
          /\ r = schema_error_reply env (get_json env)))
  \/ (exists mapping tok rid acct sess_json is_sa,
        decoded env mapping tok rid
        /\ requests_get env ACCOUNT_URL ("Bearer " +:+ tok) = Responded acct
        /\ raise_for_status acct = false
        /\ json acct = Some sess_json
        /\ getpath sess_json ["data"; "attributes"; "is-service-account"]
           = Value is_sa
        /\ py_eq_True is_sa = false
        /\ t = [account_call tok]
        /\ r = not_service_account_reply)
  \/ (exists mapping tok rid run_resp run_json run_status tfc_ws_id,
        decoded env mapping tok rid
        /\ validated env tok
        /\ requests_get env (RUNS_BASE_URL +:+ rid) ("Bearer " +:+ tok)
           = Responded run_resp
        /\ json run_resp = Some run_json
        /\ getpath run_json ["data"; "attributes"; "status"]
           = Value run_status
        /\ getpath run_json
             ["data"; "relationships"; "workspace"; "data"; "id"]
           = Value tfc_ws_id
        /\ run_status <> PStr "planning"
        /\ run_status <> PStr "applying"
        /\ t = [account_call tok; run_call tok rid]
        /\ r = run_status_reply).
Proof.
  intros Hrun%handled_iff Hstatus.
  inversion Hrun; subst; try discriminate;
    try match goal with
        | H : context [status_code ?a =? 401] |- _ =>
            destruct (status_code a =? 401); discriminate
        end.
  - left. eauto.
  - left. eauto 6.
  - right. left. eauto 15.
  - right. right.
    assert (run_status <> PStr "planning" /\ run_status <> PStr "applying")
      as [? ?].
    { split; intros ->; discriminate. }
    eauto 20.
Qed.


(** ** The further properties on the concrete deployment *)

Lemma scenario_decoded (mapping : pyval) (account run workspace : get_result) :
  decoded (scenario (Some mapping) scenario_request account run workspace)
          mapping "t1" "run-123".
Proof. by split. Qed.

Lemma scenario_validated (mapping : option pyval) (request_json : pyval)
    (run workspace : get_result) :
  validated
    (scenario mapping request_json (ok (json_account (PBool true)))
       run workspace)
    "t1".
Proof.
  exists (mkResponse 200 (Some (json_account (PBool true)))),
    (json_account (PBool true)), (PBool true).
  by vm_compute.
Qed.

Lemma scenario_eligible (mapping : option pyval) (request_json : pyval)
    (account workspace : get_result) (tfc_ws_id : pyval) :
  eligible
    (scenario mapping request_json account
       (ok (json_run (PStr "planning") tfc_ws_id)) workspace)
    "t1" "run-123" tfc_ws_id.
Proof.
  exists (mkResponse 200 (Some (json_run (PStr "planning") tfc_ws_id))),
    (json_run (PStr "planning") tfc_ws_id), (PStr "planning").
  repeat split; try (by vm_compute). by left.
Qed.

Lemma scenario_resolved (mapping : option pyval) (request_json : pyval)
    (account run : get_result) :
  resolved
    (scenario mapping request_json account run
       (ok (json_workspace (PStr "org-a") (PStr "prod"))))
    "t1" "ws-1" "org-a/prod".
Proof.
  exists (mkResponse 200 (Some (json_workspace (PStr "org-a") (PStr "prod")))),
    (json_workspace (PStr "org-a") (PStr "prod")), (PStr "org-a"),
    (PStr "prod").
  by vm_compute.
Qed.



(** The status code of the complete exchange. *)
Lemma reply_status_codes_witness :
  (http_status (success_reply "ya29.minted") = 200
   /\ body (success_reply "ya29.minted") !! "status" = Some (PStr "success"))
  \/ ((http_status (success_reply "ya29.minted") = 400
       \/ http_status (success_reply "ya29.minted") = 401
       \/ http_status (success_reply "ya29.minted") = 404
       \/ http_status (success_reply "ya29.minted") = 502)
      /\ body (success_reply "ya29.minted") !! "status"
         = Some (PStr "error")).
Proof.
  apply (reply_status_codes scenario_env
           [account_call "t1"; run_call "t1" "run-123";
            workspace_call "t1" "ws-1";
            mint_call scenario_env (PStr "sa1@proj.iam")]).
  vm_compute. reflexivity.
Defined.

(** The workspace details call is answered 503. *)
Lemma workspace_failure_bad_gateway_witness :
  generate_token
    (scenario (Some scenario_mapping) scenario_request
       (ok (json_account (PBool true)))
       (ok (json_run (PStr "planning") (PStr "ws-1")))
       (Responded (mkResponse 503 None)))
  = ([account_call "t1"; run_call "t1" "run-123";
      workspace_call "t1" "ws-1"],
     Return BAD_GATEWAY)
  /\ http_status BAD_GATEWAY = 502.
Proof.
  apply (workspace_failure_bad_gateway _ scenario_mapping "t1" "run-123"
           "ws-1" (mkResponse 503 None)).
  - apply scenario_decoded.
  - apply scenario_validated.
  - apply scenario_eligible.
  - reflexivity.
  - left. reflexivity.
Defined.

(** The run document gives the number 7 as workspace id. *)
Lemma workspace_id_not_a_string_witness :
  generate_token (scenario_with_run (ok (json_run (PStr "planning") (PInt 7))))
  = ([account_call "t1"; run_call "t1" "run-123"], Raise TypeError).
Proof.
  apply (workspace_id_not_a_string _ scenario_mapping "t1" "run-123"
           (PInt 7)).
  - apply scenario_decoded.
  - apply scenario_validated.
  - apply scenario_eligible.
  - discriminate.
Defined.

(** The workspace is mapped to an account that the minting API refuses. *)
Lemma minting_failure_is_raised_witness :
  let mapping := PDict {[ "org-a/prod" := PStr "unknown@proj.iam" ]} in
  generate_token (scenario_with_mapping (Some mapping))
  = ([account_call "t1"; run_call "t1" "run-123"; workspace_call "t1" "ws-1";
      mint_call (scenario_with_mapping (Some mapping))
                (PStr "unknown@proj.iam")],
     Raise GoogleAPICallError).
Proof.
  intros mapping.
  apply (minting_failure_is_raised _ mapping (PStr "unknown@proj.iam")
           "t1" "run-123" "ws-1" "org-a/prod").
  - apply scenario_decoded.
  - apply scenario_validated.
  - apply scenario_eligible.
  - apply scenario_resolved.
  - vm_compute. reflexivity.
  - vm_compute. reflexivity.
Defined.

(** The complete exchange, read backwards from its reply. *)
Lemma success_only_after_validation_witness :
  exists mapping tok rid ws_id ws_slug sa access_token,
    decoded scenario_env mapping tok rid
    /\ validated scenario_env tok
    /\ eligible scenario_env tok rid (PStr ws_id)
    /\ resolved scenario_env tok ws_id ws_slug
    /\ getitem mapping ws_slug = Value sa
    /\ generate_access_token scenario_env
         ("projects/-/serviceAccounts/" +:+ format scenario_env sa)
         GOOGLE_DEFAULT_AUTH_SCOPES = Some access_token
    /\ [account_call "t1"; run_call "t1" "run-123";
        workspace_call "t1" "ws-1";
        mint_call scenario_env (PStr "sa1@proj.iam")]
       = [account_call tok; run_call tok rid; workspace_call tok ws_id;
          mint_call scenario_env sa]
    /\ success_reply "ya29.minted" = success_reply access_token.
Proof.
  apply (success_only_after_validation scenario_env).
  - vm_compute. reflexivity.
  - reflexivity.
Defined.

(** The complete exchange, read backwards from its minting call. *)
Lemma mint_only_after_validation_witness :
  exists mapping tok rid ws_id ws_slug sa,
    decoded scenario_env mapping tok rid
    /\ validated scenario_env tok
    /\ eligible scenario_env tok rid (PStr ws_id)
    /\ resolved scenario_env tok ws_id ws_slug
    /\ getitem mapping ws_slug = Value sa
    /\ "projects/-/serviceAccounts/sa1@proj.iam"
       = "projects/-/serviceAccounts/" +:+ format scenario_env sa
    /\ GOOGLE_DEFAULT_AUTH_SCOPES
       = ["https://www.googleapis.com/auth/cloud-platform"].
Proof.
  apply (mint_only_after_validation scenario_env
           "projects/-/serviceAccounts/sa1@proj.iam"
           GOOGLE_DEFAULT_AUTH_SCOPES).
  replace (generate_token scenario_env).1
    with [account_call "t1"; run_call "t1" "run-123";
          workspace_call "t1" "ws-1";
          mint_call scenario_env (PStr "sa1@proj.iam")]
    by (vm_compute; reflexivity).
  rewrite !elem_of_cons. right. right. right. left. reflexivity.
Defined.

(** The calls of an exchange that stops at the run status. *)
Lemma calls_in_order_witness :
  let env := scenario_with_run (ok (json_run (PStr "errored") (PStr "ws-1"))) in
  let t := [account_call "t1"; run_call "t1" "run-123"] in
  t = []
  \/ exists mapping tok rid,
       decoded env mapping tok rid
       /\ (t = [account_call tok]
           \/ validated env tok
              /\ (t = [account_call tok; run_call tok rid]
                  \/ exists ws_id,
                       eligible env tok rid (PStr ws_id)
                       /\ (t = [account_call tok; run_call tok rid;
                                workspace_call tok ws_id]
                           \/ exists ws_slug sa,
                                resolved env tok ws_id ws_slug
                                /\ getitem mapping ws_slug = Value sa
                                /\ t = [account_call tok; run_call tok rid;
                                        workspace_call tok ws_id;
                                        mint_call env sa]))).
Proof.
  intros env t.
  apply (calls_in_order env t (Return run_status_reply)).
  vm_compute. reflexivity.
Defined.

(** The mapping is a JSON array that holds the slug. *)
Lemma non_object_mapping_never_mints_witness :
  let env := scenario_with_mapping (Some (PList [PStr "org-a/prod"])) in
  (forall name scope, EvMint name scope ∉ (generate_token env).1)
  /\ (forall r, (generate_token env).2 = Return r -> http_status r <> 200).
Proof.
  intros env.
  apply (non_object_mapping_never_mints env (PList [PStr "org-a/prod"])).
  - reflexivity.
  - discriminate.
Defined.

(** The account details call is answered 401. *)
Lemma unauthorized_only_from_platform_witness :
  let env := scenario_with_account (Responded (mkResponse 401 None)) in
  exists mapping tok rid acct,
    decoded env mapping tok rid
    /\ requests_get env ACCOUNT_URL ("Bearer " +:+ tok) = Responded acct
    /\ status_code acct = 401
    /\ [account_call "t1"] = [account_call tok]
    /\ unauthorized_reply = unauthorized_reply.
Proof.
  intros env.
  apply (unauthorized_only_from_platform env).
  - vm_compute. reflexivity.
  - reflexivity.
Defined.

(** The deployment with an empty mapping. *)
Lemma not_found_only_after_validation_witness :
  let env := scenario_with_mapping (Some (PDict ∅)) in
  exists mapping tok rid ws_id ws_slug,
    decoded env mapping tok rid
    /\ validated env tok
    /\ eligible env tok rid (PStr ws_id)
    /\ resolved env tok ws_id ws_slug
    /\ py_contains mapping ws_slug = Value false
    /\ [account_call "t1"; run_call "t1" "run-123";
        workspace_call "t1" "ws-1"]
       = [account_call tok; run_call tok rid; workspace_call tok ws_id]
    /\ no_identity_reply "org-a/prod" = no_identity_reply ws_slug.
Proof.
  intros env.
  apply (not_found_only_after_validation env).
  - vm_compute. reflexivity.
  - reflexivity.
Defined.

(** The run details call is answered with the platform's 404 document. *)
Lemma key_errors_name_document_fields_witness :
  List.In "data"
    ["data"; "attributes"; "is-service-account"; "status";
     "relationships"; "workspace"; "id"; "organization"; "name"]
  /\ forall name scope,
       EvMint name scope ∉ [account_call "t1"; run_call "t1" "run-123"].
Proof.
  apply (key_errors_name_document_fields
           (scenario_with_run
              (Responded (mkResponse 404 (Some json_not_found))))).
  vm_compute. reflexivity.
Defined.

(** The complete exchange, with a run details call answered 500. *)
Lemma run_status_code_is_ignored_witness :
  generate_token
    (with_status_at scenario_env (RUNS_BASE_URL +:+ "run-123") 500)
  = generate_token scenario_env.
Proof.
  apply (run_status_code_is_ignored scenario_env "run-123" 500 "t1").
  reflexivity.
Defined.

(** A human token is rejected in the same way whatever the mapping. *)
Lemma mapping_only_read_after_resolution_witness :
  let env := scenario_with_account (ok (json_account (PBool false))) in
  generate_token (with_mapping env (PDict ∅)) = generate_token env
  \/ exists tok rid ws_id ws_slug,
       decoded env scenario_mapping tok rid
       /\ validated env tok
       /\ eligible env tok rid (PStr ws_id)
       /\ resolved env tok ws_id ws_slug.
Proof.
  intros env.
  apply (mapping_only_read_after_resolution env (PDict ∅) scenario_mapping).
  reflexivity.
Defined.

(** The account details call cannot be made. *)
Lemma request_exception_only_from_failed_call_witness :
  exists url authorization t',
    [account_call "t1"] = (t' ++ [EvGet url authorization])%list
    /\ requests_get (scenario_with_account ConnectionFailed)
         url authorization
       = ConnectionFailed.
Proof.
  apply (request_exception_only_from_failed_call
           (scenario_with_account ConnectionFailed)).
  vm_compute. reflexivity.
Defined.

(** The run details call is answered with a body that is not JSON. *)
Lemma bad_gateway_only_from_platform_witness :
  let env := scenario_with_run (Responded (mkResponse 200 None)) in
  BAD_GATEWAY = BAD_GATEWAY
  /\ exists url authorization t',
       [account_call "t1"; run_call "t1" "run-123"]
       = (t' ++ [EvGet url authorization])%list
       /\ exists resp,
            requests_get env url authorization = Responded resp
            /\ (raise_for_status resp = true \/ json resp = None).
Proof.
  intros env.
  apply (bad_gateway_only_from_platform env).
  - vm_compute. reflexivity.
  - reflexivity.
Defined.

(** A run that has errored, read backwards from its 400. *)
Lemma bad_request_causes_witness :
  let env := scenario_with_run (ok (json_run (PStr "errored") (PStr "ws-1"))) in
  let t := [account_call "t1"; run_call "t1" "run-123"] in
  let r := run_status_reply in
  (t = []
   /\ (get_json env = PNone /\ r = missing_body_reply
       \/ get_json env <> PNone
          /\ schema_accepts (get_json env) = false
          /\ r = schema_error_reply env (get_json env)))
  \/ (exists mapping tok rid acct sess_json is_sa,
        decoded env mapping tok rid
        /\ requests_get env ACCOUNT_URL ("Bearer " +:+ tok) = Responded acct
        /\ raise_for_status acct = false
        /\ json acct = Some sess_json
        /\ getpath sess_json ["data"; "attributes"; "is-service-account"]
           = Value is_sa
        /\ py_eq_True is_sa = false
        /\ t = [account_call tok]
        /\ r = not_service_account_reply)
  \/ (exists mapping tok rid run_resp run_json run_status tfc_ws_id,
        decoded env mapping tok rid
        /\ validated env tok
        /\ requests_get env (RUNS_BASE_URL +:+ rid) ("Bearer " +:+ tok)
           = Responded run_resp
        /\ json run_resp = Some run_json
        /\ getpath run_json ["data"; "attributes"; "status"]
           = Value run_status
        /\ getpath run_json
             ["data"; "relationships"; "workspace"; "data"; "id"]
           = Value tfc_ws_id
        /\ run_status <> PStr "planning"
        /\ run_status <> PStr "applying"
        /\ t = [account_call tok; run_call tok rid]
        /\ r = run_status_reply).
Proof.
  intros env t r.
  apply (bad_request_causes env t r).
  - vm_compute. reflexivity.
  - reflexivity.
Defined.

(** The deployment with a SA_MAPPING_CONFIG that does not parse, read
    backwards from its exception. *)
Lemma unbound_local_only_for_invalid_config_witness :
  loads_SA_MAPPING (scenario_with_mapping None) = None
  /\ @nil event = []
  /\ "parsed_mapping" = "parsed_mapping".
Proof.
  apply (unbound_local_only_for_invalid_config
           (scenario_with_mapping None) [] "parsed_mapping").
  vm_compute. reflexivity.
Defined.
